(** * NavigationPlugin: page-load timing capture of the RUM web client

    A shallow embedding of [NavigationPlugin] (the class that records one
    navigation-timing event per page load) and of the part of the browser it
    talks to: the [performance] object, the [load] listeners of [window], the
    timer queue fed by [setTimeout], and the recording callback.

    Numbers.  The Level 1 record [performance.timing] is a [PerformanceTiming]:
    its attributes are [unsigned long long] milliseconds since the epoch, so
    they are integers far below 2^53 and JavaScript's subtraction and
    comparison on them are the exact ones of [Z].  The Level 2 entry is typed
    [any] in the source and carries [DOMHighResTimeStamp]s and a quotient, so
    its numbers are IEEE 754 binary64 values, Rocq's primitive [float]. *)

From Stdlib Require Import ZArith Bool List String Lia.
From Stdlib Require Import FloatClass PrimFloat.
Import ListNotations.

Local Open Scope Z_scope.
Local Open Scope string_scope.
Local Open Scope list_scope.

(** ** JavaScript numbers *)

Module Js.

(** [x > 0] on a binary64 number; false on NaN. *)
Definition gt0 (x : float) : bool := PrimFloat.ltb 0%float x.

(** [Boolean(x)] for a number: ECMAScript's ToBoolean is false exactly on
    [+0], [-0] and [NaN]. *)
Definition Boolean (x : float) : bool :=
  match classify x with
  | PZero | NZero | NaN => false
  | _ => true
  end.

(** Evaluation either returns normally or throws (a [TypeError] here: a
    property read on [undefined]). *)
Inductive completion (A : Type) : Type :=
| Returns (a : A)
| Throws.
Arguments Returns {A} a.
Arguments Throws {A}.

End Js.
Import Js.

(** ** The two timing sources *)

(** [performance.timing]: the flat Level 1 record of absolute timestamps. *)
Module PerformanceTiming.
Record t : Type := Build {
  navigationStart : Z;
  unloadEventStart : Z;
  unloadEventEnd : Z;
  redirectStart : Z;
  redirectEnd : Z;
  fetchStart : Z;
  domainLookupStart : Z;
  domainLookupEnd : Z;
  connectStart : Z;
  connectEnd : Z;
  secureConnectionStart : Z;
  requestStart : Z;
  responseStart : Z;
  responseEnd : Z;
  domInteractive : Z;
  domContentLoadedEventStart : Z;
  domContentLoadedEventEnd : Z;
  domComplete : Z;
  loadEventStart : Z;
  loadEventEnd : Z
}.
End PerformanceTiming.

(** An entry of [performance.getEntriesByType('navigation')]: the Level 2
    shape, with timestamps relative to the time origin. *)
Module PerformanceNavigationTiming.
Record t : Type := Build {
  initiatorType : string;
  type : string;
  startTime : float;
  unloadEventStart : float;
  unloadEventEnd : float;
  redirectCount : float;
  redirectStart : float;
  redirectEnd : float;
  workerStart : float;
  fetchStart : float;
  domainLookupStart : float;
  domainLookupEnd : float;
  nextHopProtocol : string;
  connectStart : float;
  connectEnd : float;
  secureConnectionStart : float;
  requestStart : float;
  responseStart : float;
  responseEnd : float;
  domInteractive : float;
  domContentLoadedEventStart : float;
  domContentLoadedEventEnd : float;
  domComplete : float;
  loadEventStart : float;
  loadEventEnd : float;
  duration : float;
  transferSize : float;
  encodedBodySize : float;
  decodedBodySize : float
}.
End PerformanceNavigationTiming.

(** ** The recorded event *)

(** [NavigationEvent]: the object literal both handlers build.  Properties
    that only the Level 2 literal sets are optional; [num] is the number type
    of the source the event was built from. *)
Module NavigationEvent.
Record t (num : Type) : Type := Build {
  version : string;
  initiatorType : string;
  navigationType : option string;
  startTime : num;
  unloadEventStart : num;
  promptForUnload : num;
  redirectCount : option num;
  redirectStart : num;
  redirectTime : num;
  workerStart : option num;
  workerTime : option num;
  fetchStart : num;
  domainLookupStart : num;
  dns : num;
  nextHopProtocol : option string;
  connectStart : num;
  connect : num;
  secureConnectionStart : num;
  tlsTime : num;
  requestStart : num;
  timeToFirstByte : num;
  responseStart : num;
  responseTime : num;
  domInteractive : num;
  domContentLoadedEventStart : num;
  domContentLoaded : num;
  domComplete : num;
  domProcessingTime : num;
  loadEventStart : num;
  loadEventTime : num;
  duration : num;
  headerSize : option num;
  transferSize : option num;
  compressionRatio : option num;
  navigationTimingLevel : num
}.
Arguments Build {num}.
Arguments version {num}.
Arguments initiatorType {num}.
Arguments navigationType {num}.
Arguments startTime {num}.
Arguments unloadEventStart {num}.
Arguments promptForUnload {num}.
Arguments redirectCount {num}.
Arguments redirectStart {num}.
Arguments redirectTime {num}.
Arguments workerStart {num}.
Arguments workerTime {num}.
Arguments fetchStart {num}.
Arguments domainLookupStart {num}.
Arguments dns {num}.
Arguments nextHopProtocol {num}.
Arguments connectStart {num}.
Arguments connect {num}.
Arguments secureConnectionStart {num}.
Arguments tlsTime {num}.
Arguments requestStart {num}.
Arguments timeToFirstByte {num}.
Arguments responseStart {num}.
Arguments responseTime {num}.
Arguments domInteractive {num}.
Arguments domContentLoadedEventStart {num}.
Arguments domContentLoaded {num}.
Arguments domComplete {num}.
Arguments domProcessingTime {num}.
Arguments loadEventStart {num}.
Arguments loadEventTime {num}.
Arguments duration {num}.
Arguments headerSize {num}.
Arguments transferSize {num}.
Arguments compressionRatio {num}.
Arguments navigationTimingLevel {num}.
End NavigationEvent.

(** ** Normalization *)

(** The object literal of [recordNavigation], the closure that
    [performanceNavigationEventHandlerTimingLevel1] defers. *)
Definition eventDataNavigationTimingLevel1 (entryData : PerformanceTiming.t)
  : NavigationEvent.t Z :=
  let origin := PerformanceTiming.navigationStart entryData in
  {| NavigationEvent.version := "1.0.0";
     NavigationEvent.initiatorType := "navigation";
     NavigationEvent.navigationType := None;
     NavigationEvent.startTime := 0;
     NavigationEvent.unloadEventStart :=
       if PerformanceTiming.unloadEventStart entryData >? 0
       then PerformanceTiming.unloadEventStart entryData - origin
       else 0;
     NavigationEvent.promptForUnload :=
       PerformanceTiming.unloadEventEnd entryData
       - PerformanceTiming.unloadEventStart entryData;
     NavigationEvent.redirectCount := None;
     NavigationEvent.redirectStart :=
       if PerformanceTiming.redirectStart entryData >? 0
       then PerformanceTiming.redirectStart entryData - origin
       else 0;
     NavigationEvent.redirectTime :=
       PerformanceTiming.redirectEnd entryData
       - PerformanceTiming.redirectStart entryData;
     NavigationEvent.workerStart := None;
     NavigationEvent.workerTime := None;
     NavigationEvent.fetchStart :=
       if PerformanceTiming.fetchStart entryData >? 0
       then PerformanceTiming.fetchStart entryData - origin
       else 0;
     NavigationEvent.domainLookupStart :=
       if PerformanceTiming.domainLookupStart entryData >? 0
       then PerformanceTiming.domainLookupStart entryData - origin
       else 0;
     NavigationEvent.dns :=
       PerformanceTiming.domainLookupEnd entryData
       - PerformanceTiming.domainLookupStart entryData;
     NavigationEvent.nextHopProtocol := None;
     NavigationEvent.connectStart :=
       if PerformanceTiming.connectStart entryData >? 0
       then PerformanceTiming.connectStart entryData - origin
       else 0;
     NavigationEvent.connect :=
       PerformanceTiming.connectEnd entryData
       - PerformanceTiming.connectStart entryData;
     NavigationEvent.secureConnectionStart :=
       if PerformanceTiming.secureConnectionStart entryData >? 0
       then PerformanceTiming.secureConnectionStart entryData - origin
       else 0;
     NavigationEvent.tlsTime :=
       if PerformanceTiming.secureConnectionStart entryData >? 0
       then PerformanceTiming.connectEnd entryData
            - PerformanceTiming.secureConnectionStart entryData
       else 0;
     NavigationEvent.requestStart :=
       if PerformanceTiming.requestStart entryData >? 0
       then PerformanceTiming.requestStart entryData - origin
       else 0;
     NavigationEvent.timeToFirstByte :=
       PerformanceTiming.responseStart entryData
       - PerformanceTiming.requestStart entryData;
     NavigationEvent.responseStart :=
       if PerformanceTiming.responseStart entryData >? 0
       then PerformanceTiming.responseStart entryData - origin
       else 0;
     NavigationEvent.responseTime :=
       if PerformanceTiming.responseStart entryData >? 0
       then PerformanceTiming.responseEnd entryData
            - PerformanceTiming.responseStart entryData
       else 0;
     NavigationEvent.domInteractive :=
       if PerformanceTiming.domInteractive entryData >? 0
       then PerformanceTiming.domInteractive entryData - origin
       else 0;
     NavigationEvent.domContentLoadedEventStart :=
       if PerformanceTiming.domContentLoadedEventStart entryData >? 0
       then PerformanceTiming.domContentLoadedEventStart entryData - origin
       else 0;
     NavigationEvent.domContentLoaded :=
       PerformanceTiming.domContentLoadedEventEnd entryData
       - PerformanceTiming.domContentLoadedEventStart entryData;
     NavigationEvent.domComplete :=
       if PerformanceTiming.domComplete entryData >? 0
       then PerformanceTiming.domComplete entryData - origin
       else 0;
     NavigationEvent.domProcessingTime :=
       PerformanceTiming.loadEventStart entryData
       - PerformanceTiming.responseEnd entryData;
     NavigationEvent.loadEventStart :=
       if PerformanceTiming.loadEventStart entryData >? 0
       then PerformanceTiming.loadEventStart entryData - origin
       else 0;
     NavigationEvent.loadEventTime :=
       PerformanceTiming.loadEventEnd entryData
       - PerformanceTiming.loadEventStart entryData;
     NavigationEvent.duration :=
       PerformanceTiming.loadEventEnd entryData
       - PerformanceTiming.navigationStart entryData;
     NavigationEvent.headerSize := None;
     NavigationEvent.transferSize := None;
     NavigationEvent.compressionRatio := None;
     NavigationEvent.navigationTimingLevel := 1 |}.

(** The object literal of [performanceNavigationEventHandlerTimingLevel2]. *)
Definition eventDataNavigationTimingLevel2
  (entryData : PerformanceNavigationTiming.t) : NavigationEvent.t float :=
  {| NavigationEvent.version := "1.0.0";
     NavigationEvent.initiatorType :=
       PerformanceNavigationTiming.initiatorType entryData;
     NavigationEvent.navigationType :=
       Some (PerformanceNavigationTiming.type entryData);
     NavigationEvent.startTime :=
       PerformanceNavigationTiming.startTime entryData;
     NavigationEvent.unloadEventStart :=
       PerformanceNavigationTiming.unloadEventStart entryData;
     NavigationEvent.promptForUnload :=
       (PerformanceNavigationTiming.unloadEventEnd entryData
        - PerformanceNavigationTiming.unloadEventStart entryData)%float;
     NavigationEvent.redirectCount :=
       Some (PerformanceNavigationTiming.redirectCount entryData);
     NavigationEvent.redirectStart :=
       PerformanceNavigationTiming.redirectStart entryData;
     NavigationEvent.redirectTime :=
       (PerformanceNavigationTiming.redirectEnd entryData
        - PerformanceNavigationTiming.redirectStart entryData)%float;
     NavigationEvent.workerStart :=
       Some (PerformanceNavigationTiming.workerStart entryData);
     NavigationEvent.workerTime :=
       Some (if gt0 (PerformanceNavigationTiming.workerStart entryData)
             then (PerformanceNavigationTiming.fetchStart entryData
                   - PerformanceNavigationTiming.workerStart entryData)%float
             else 0%float);
     NavigationEvent.fetchStart :=
       PerformanceNavigationTiming.fetchStart entryData;
     NavigationEvent.domainLookupStart :=
       PerformanceNavigationTiming.domainLookupStart entryData;
     NavigationEvent.dns :=
       (PerformanceNavigationTiming.domainLookupEnd entryData
        - PerformanceNavigationTiming.domainLookupStart entryData)%float;
     NavigationEvent.nextHopProtocol :=
       Some (PerformanceNavigationTiming.nextHopProtocol entryData);
     NavigationEvent.connectStart :=
       PerformanceNavigationTiming.connectStart entryData;
     NavigationEvent.connect :=
       (PerformanceNavigationTiming.connectEnd entryData
        - PerformanceNavigationTiming.connectStart entryData)%float;
     NavigationEvent.secureConnectionStart :=
       PerformanceNavigationTiming.secureConnectionStart entryData;
     NavigationEvent.tlsTime :=
       if gt0 (PerformanceNavigationTiming.secureConnectionStart entryData)
       then (PerformanceNavigationTiming.connectEnd entryData
             - PerformanceNavigationTiming.secureConnectionStart entryData)%float
       else 0%float;
     NavigationEvent.requestStart :=
       PerformanceNavigationTiming.requestStart entryData;
     NavigationEvent.timeToFirstByte :=
       (PerformanceNavigationTiming.responseStart entryData
        - PerformanceNavigationTiming.requestStart entryData)%float;
     NavigationEvent.responseStart :=
       PerformanceNavigationTiming.responseStart entryData;
     NavigationEvent.responseTime :=
       if gt0 (PerformanceNavigationTiming.responseStart entryData)
       then (PerformanceNavigationTiming.responseEnd entryData
             - PerformanceNavigationTiming.responseStart entryData)%float
       else 0%float;
     NavigationEvent.domInteractive :=
       PerformanceNavigationTiming.domInteractive entryData;
     NavigationEvent.domContentLoadedEventStart :=
       PerformanceNavigationTiming.domContentLoadedEventStart entryData;
     NavigationEvent.domContentLoaded :=
       (PerformanceNavigationTiming.domContentLoadedEventEnd entryData
        - PerformanceNavigationTiming.domContentLoadedEventStart entryData)%float;
     NavigationEvent.domComplete :=
       PerformanceNavigationTiming.domComplete entryData;
     NavigationEvent.domProcessingTime :=
       (PerformanceNavigationTiming.loadEventStart entryData
        - PerformanceNavigationTiming.responseEnd entryData)%float;
     NavigationEvent.loadEventStart :=
       PerformanceNavigationTiming.loadEventStart entryData;
     NavigationEvent.loadEventTime :=
       (PerformanceNavigationTiming.loadEventEnd entryData
        - PerformanceNavigationTiming.loadEventStart entryData)%float;
     NavigationEvent.duration :=
       PerformanceNavigationTiming.duration entryData;
     NavigationEvent.headerSize :=
       Some (PerformanceNavigationTiming.transferSize entryData
             - PerformanceNavigationTiming.encodedBodySize entryData)%float;
     NavigationEvent.transferSize :=
       Some (PerformanceNavigationTiming.transferSize entryData);
     NavigationEvent.compressionRatio :=
       Some (if gt0 (PerformanceNavigationTiming.encodedBodySize entryData)
             then (PerformanceNavigationTiming.decodedBodySize entryData
                   / PerformanceNavigationTiming.encodedBodySize entryData)%float
             else 0%float);
     NavigationEvent.navigationTimingLevel := 2%float |}.

(** ** The plugin and the part of the browser it uses *)

Definition NAVIGATION_EVENT_PLUGIN_ID : string := "com.amazonaws.rum.navigation".

(** A [RecordEvent] callback, by identity; what it does with an event is the
    business of the pipeline behind it, so a call is modelled by logging it. *)
Definition RecordEvent : Type := nat.

Record PluginContext : Type := { record : RecordEvent }.

(** The payload handed to the callback. *)
Inductive EventData : Type :=
| Level1Data (e : NavigationEvent.t Z)
| Level2Data (e : NavigationEvent.t float).

(** One call [recordEvent(type, eventData)]. *)
Record RecordCall : Type := {
  callee : RecordEvent;
  eventType : string;
  eventData : EventData
}.

(** The fields of the class instance. *)
Record NavigationPlugin : Type := {
  pluginId : string;
  enabled : bool;
  recordEvent : option RecordEvent
}.

(** The [performance] global, when the host has one:
    [getEntriesByType('navigation')] and [timing]. *)
Record Performance : Type := {
  getEntriesByType_NAVIGATION : list PerformanceNavigationTiming.t;
  timing : PerformanceTiming.t
}.

(** Callbacks registered on [window] for [load]: the instance's own
    [eventListener] arrow function, or somebody else's. *)
Inductive Listener : Type :=
| EventListener
| Foreign (id : nat).

(** Callbacks handed to [setTimeout]; the plugin only ever defers the
    [recordNavigation] closure. *)
Inductive Task : Type :=
| RecordNavigation.

(** Everything a method of the plugin reads or writes. *)
Record World : Type := {
  this : NavigationPlugin;
  performance : option Performance;
  loadListeners : list Listener;
  timers : list Task;
  recorded : list RecordCall
}.

Definition Listener_eqb (a b : Listener) : bool :=
  match a, b with
  | EventListener, EventListener => true
  | Foreign i, Foreign j => Nat.eqb i j
  | _, _ => false
  end.

Definition set_this (p : NavigationPlugin) (w : World) : World :=
  {| this := p; performance := performance w;
     loadListeners := loadListeners w; timers := timers w;
     recorded := recorded w |}.

Definition set_performance (h : option Performance) (w : World) : World :=
  {| this := this w; performance := h;
     loadListeners := loadListeners w; timers := timers w;
     recorded := recorded w |}.

Definition set_loadListeners (ls : list Listener) (w : World) : World :=
  {| this := this w; performance := performance w;
     loadListeners := ls; timers := timers w;
     recorded := recorded w |}.

Definition set_timers (ts : list Task) (w : World) : World :=
  {| this := this w; performance := performance w;
     loadListeners := loadListeners w; timers := ts;
     recorded := recorded w |}.

Definition set_recorded (cs : list RecordCall) (w : World) : World :=
  {| this := this w; performance := performance w;
     loadListeners := loadListeners w; timers := timers w;
     recorded := cs |}.

(** [window.addEventListener(LOAD, l)]: the DOM appends the listener unless
    the same callback is already registered for the event. *)
Definition addEventListener (l : Listener) (w : World) : World :=
  if existsb (Listener_eqb l) (loadListeners w) then w
  else set_loadListeners (loadListeners w ++ [l]) w.

(** [window.removeEventListener(LOAD, l)]. *)
Definition removeEventListener (l : Listener) (w : World) : World :=
  set_loadListeners
    (filter (fun l' => negb (Listener_eqb l l')) (loadListeners w)) w.

(** [setTimeout(task, 0)]: the task joins the queue of timers. *)
Definition setTimeout (task : Task) (w : World) : World :=
  set_timers (timers w ++ [task]) w.

(** [this.recordEvent(type, eventData)]. *)
Definition call_recordEvent (f : RecordEvent) (type : string) (d : EventData)
  (w : World) : World :=
  set_recorded
    (recorded w ++ [{| callee := f; eventType := type; eventData := d |}]) w.

(** [new NavigationPlugin()]. *)
Definition constructor : NavigationPlugin :=
  {| pluginId := NAVIGATION_EVENT_PLUGIN_ID;
     enabled := true;
     recordEvent := None |}.

Definition getPluginId (w : World) : string := pluginId (this w).

(** [hasTheWindowLoadEventFired]: [window.performance] is read as a property,
    so a host without it yields [undefined] and the conjunction is falsy. *)
Definition hasTheWindowLoadEventFired (w : World) : bool :=
  match performance w with
  | Some p =>
      match getEntriesByType_NAVIGATION p with
      | navData :: _ =>
          Boolean (PerformanceNavigationTiming.loadEventEnd navData)
      | [] => false
      end
  | None => false
  end.

Definition enable (w : World) : World :=
  if enabled (this w) then w
  else
    addEventListener EventListener
      (set_this {| pluginId := pluginId (this w);
                   enabled := true;
                   recordEvent := recordEvent (this w) |} w).

Definition disable (w : World) : World :=
  if negb (enabled (this w)) then w
  else
    removeEventListener EventListener
      (set_this {| pluginId := pluginId (this w);
                   enabled := false;
                   recordEvent := recordEvent (this w) |} w).

Section Recording.

(** The event type constant imported from [../utils/constant], a file that
    is not part of the sources at hand; the plugin only passes it on. *)
Variable PERFORMANCE_NAVIGATION_EVENT_TYPE : string.

(** The closure [recordNavigation]: it reads [performance.timing] when it
    runs, not when it was scheduled. *)
Definition recordNavigation (w : World) : completion World :=
  match performance w with
  | None => Throws
  | Some p =>
      let entryData := timing p in
      match recordEvent (this w) with
      | Some f =>
          Returns
            (call_recordEvent f PERFORMANCE_NAVIGATION_EVENT_TYPE
               (Level1Data (eventDataNavigationTimingLevel1 entryData)) w)
      | None => Returns w
      end
  end.

Definition performanceNavigationEventHandlerTimingLevel1 (w : World) : World :=
  setTimeout RecordNavigation w.

Definition performanceNavigationEventHandlerTimingLevel2
  (entryData : PerformanceNavigationTiming.t) (w : World) : World :=
  match recordEvent (this w) with
  | Some f =>
      call_recordEvent f PERFORMANCE_NAVIGATION_EVENT_TYPE
        (Level2Data (eventDataNavigationTimingLevel2 entryData)) w
  | None => w
  end.

(** [eventListener]: [performance] is read unguarded here, so a host
    without it makes the call throw. *)
Definition eventListener (w : World) : completion World :=
  match performance w with
  | None => Throws
  | Some p =>
      match getEntriesByType_NAVIGATION p with
      | [] => Returns (performanceNavigationEventHandlerTimingLevel1 w)
      | entryData :: _ =>
          Returns (performanceNavigationEventHandlerTimingLevel2 entryData w)
      end
  end.

Definition load (context : PluginContext) (w : World) : completion World :=
  let w :=
    set_this {| pluginId := pluginId (this w);
                enabled := enabled (this w);
                recordEvent := Some (record context) |} w in
  if enabled (this w) then
    if hasTheWindowLoadEventFired w then eventListener w
    else Returns (addEventListener EventListener w)
  else Returns w.

(** *** The host's side: running a timer, firing [load] *)

Definition runTask (task : Task) (w : World) : completion World :=
  match task with
  | RecordNavigation => recordNavigation w
  end.

(** The event loop takes the oldest timer off the queue and runs it. *)
Definition runNextTimer (w : World) : completion World :=
  match timers w with
  | [] => Returns w
  | task :: rest => runTask task (set_timers rest w)
  end.

(** Runs the timers that are queued now, oldest first; a task that throws
    is reported by the host and the loop goes on. *)
Fixpoint runTasks (tasks : list Task) (w : World) : World :=
  match tasks with
  | [] => w
  | task :: rest =>
      match runTask task w with
      | Returns w' => runTasks rest w'
      | Throws => runTasks rest w
      end
  end.

Definition runTimers (w : World) : World :=
  runTasks (timers w) (set_timers [] w).

(** A listener of [window] is invoked; an exception it throws is reported
    by the host and does not reach the dispatch. *)
Definition invoke (l : Listener) (w : World) : World :=
  match l with
  | EventListener =>
      match eventListener w with
      | Returns w' => w'
      | Throws => w
      end
  | Foreign _ => w
  end.

(** The browser fires [load]: every listener registered at that moment is
    invoked, in order of registration. *)
Definition dispatchLoad (w : World) : World :=
  fold_left (fun acc l => invoke l acc) (loadListeners w) w.

(** *** Histories

    What can happen to a page that holds one plugin instance: the
    collaborator calls a method, the browser fires [load], a timer gets its
    turn, or the host's timing data moves on. *)

Inductive Action : Type :=
| CallLoad (context : PluginContext)
| CallEnable
| CallDisable
| LoadSignal
| TimerTurn
| HostUpdate (h : option Performance).

Definition step (a : Action) (w : World) : World :=
  match a with
  | CallLoad context =>
      match load context w with
      | Returns w' => w'
      | Throws => w
      end
  | CallEnable => enable w
  | CallDisable => disable w
  | LoadSignal => dispatchLoad w
  | TimerTurn =>
      match runNextTimer w with
      | Returns w' => w'
      | Throws => set_timers (tl (timers w)) w
      end
  | HostUpdate h => set_performance h w
  end.

Definition run (actions : list Action) (w : World) : World :=
  fold_left (fun acc a => step a acc) actions w.

(** A page on which the plugin has just been constructed. *)
Definition newWorld (h : option Performance) : World :=
  {| this := constructor; performance := h;
     loadListeners := []; timers := []; recorded := [] |}.

Definition reachable (w : World) : Prop :=
  exists h actions, w = run actions (newWorld h).

End Recording.

(** How many times the plugin's own listener is registered for [load]. *)
Definition registrations (w : World) : nat :=
  List.length (filter (Listener_eqb EventListener) (loadListeners w)).

(** The listener is registered at most once, and not at all while the
    plugin is disabled. *)
Definition tidy (w : World) : Prop :=
  (registrations w <= 1)%nat /\
  (enabled (this w) = false -> registrations w = 0%nat).

(** ** Sample inputs *)

(** A legacy host's record: navigation at 1000, request at 1200, response
    from 1250 to 1300, load event from 1400 to 1450. *)
Definition legacy_timing : PerformanceTiming.t :=
  {| PerformanceTiming.navigationStart := 1000;
     PerformanceTiming.unloadEventStart := 0;
     PerformanceTiming.unloadEventEnd := 0;
     PerformanceTiming.redirectStart := 0;
     PerformanceTiming.redirectEnd := 0;
     PerformanceTiming.fetchStart := 0;
     PerformanceTiming.domainLookupStart := 0;
     PerformanceTiming.domainLookupEnd := 0;
     PerformanceTiming.connectStart := 0;
     PerformanceTiming.connectEnd := 0;
     PerformanceTiming.secureConnectionStart := 0;
     PerformanceTiming.requestStart := 1200;
     PerformanceTiming.responseStart := 1250;
     PerformanceTiming.responseEnd := 1300;
     PerformanceTiming.domInteractive := 0;
     PerformanceTiming.domContentLoadedEventStart := 0;
     PerformanceTiming.domContentLoadedEventEnd := 0;
     PerformanceTiming.domComplete := 0;
     PerformanceTiming.loadEventStart := 1400;
     PerformanceTiming.loadEventEnd := 1450 |}.

(** The same page read while the response has an end but no start, and the
    connection an end but no start. *)
Definition legacy_timing_partial : PerformanceTiming.t :=
  {| PerformanceTiming.navigationStart := 1000;
     PerformanceTiming.unloadEventStart := 0;
     PerformanceTiming.unloadEventEnd := 0;
     PerformanceTiming.redirectStart := 0;
     PerformanceTiming.redirectEnd := 0;
     PerformanceTiming.fetchStart := 1010;
     PerformanceTiming.domainLookupStart := 1010;
     PerformanceTiming.domainLookupEnd := 1010;
     PerformanceTiming.connectStart := 0;
     PerformanceTiming.connectEnd := 1100;
     PerformanceTiming.secureConnectionStart := 0;
     PerformanceTiming.requestStart := 1200;
     PerformanceTiming.responseStart := 0;
     PerformanceTiming.responseEnd := 1300;
     PerformanceTiming.domInteractive := 0;
     PerformanceTiming.domContentLoadedEventStart := 0;
     PerformanceTiming.domContentLoadedEventEnd := 0;
     PerformanceTiming.domComplete := 0;
     PerformanceTiming.loadEventStart := 1400;
     PerformanceTiming.loadEventEnd := 1450 |}.

(** A modern host's entry: 500 bytes transferred, a body of 300 bytes that
    decodes to 900; the name lookup starts at the time origin and takes 20ms;
    [loadEventEnd] is whatever the host reports at the time of reading. *)
Definition modern_entry (loadEventEnd : float) : PerformanceNavigationTiming.t :=
  {| PerformanceNavigationTiming.initiatorType := "navigation";
     PerformanceNavigationTiming.type := "navigate";
     PerformanceNavigationTiming.startTime := 0;
     PerformanceNavigationTiming.unloadEventStart := 0;
     PerformanceNavigationTiming.unloadEventEnd := 0;
     PerformanceNavigationTiming.redirectCount := 0;
     PerformanceNavigationTiming.redirectStart := 0;
     PerformanceNavigationTiming.redirectEnd := 0;
     PerformanceNavigationTiming.workerStart := 0;
     PerformanceNavigationTiming.fetchStart := 0;
     PerformanceNavigationTiming.domainLookupStart := 0;
     PerformanceNavigationTiming.domainLookupEnd := 20;
     PerformanceNavigationTiming.nextHopProtocol := "h2";
     PerformanceNavigationTiming.connectStart := 20;
     PerformanceNavigationTiming.connectEnd := 45;
     PerformanceNavigationTiming.secureConnectionStart := 25;
     PerformanceNavigationTiming.requestStart := 50;
     PerformanceNavigationTiming.responseStart := 120.5;
     PerformanceNavigationTiming.responseEnd := 130;
     PerformanceNavigationTiming.domInteractive := 300;
     PerformanceNavigationTiming.domContentLoadedEventStart := 310;
     PerformanceNavigationTiming.domContentLoadedEventEnd := 312;
     PerformanceNavigationTiming.domComplete := 400;
     PerformanceNavigationTiming.loadEventStart := 400;
     PerformanceNavigationTiming.loadEventEnd := loadEventEnd;
     PerformanceNavigationTiming.duration := loadEventEnd;
     PerformanceNavigationTiming.transferSize := 500;
     PerformanceNavigationTiming.encodedBodySize := 300;
     PerformanceNavigationTiming.decodedBodySize := 900 |}%float.

(** The same entry for a response without a body. *)
Definition modern_entry_empty_body : PerformanceNavigationTiming.t :=
  {| PerformanceNavigationTiming.initiatorType := "navigation";
     PerformanceNavigationTiming.type := "navigate";
     PerformanceNavigationTiming.startTime := 0;
     PerformanceNavigationTiming.unloadEventStart := 0;
     PerformanceNavigationTiming.unloadEventEnd := 0;
     PerformanceNavigationTiming.redirectCount := 0;
     PerformanceNavigationTiming.redirectStart := 0;
     PerformanceNavigationTiming.redirectEnd := 0;
     PerformanceNavigationTiming.workerStart := 0;
     PerformanceNavigationTiming.fetchStart := 0;
     PerformanceNavigationTiming.domainLookupStart := 0;
     PerformanceNavigationTiming.domainLookupEnd := 20;
     PerformanceNavigationTiming.nextHopProtocol := "h2";
     PerformanceNavigationTiming.connectStart := 20;
     PerformanceNavigationTiming.connectEnd := 45;
     PerformanceNavigationTiming.secureConnectionStart := 25;
     PerformanceNavigationTiming.requestStart := 50;
     PerformanceNavigationTiming.responseStart := 120.5;
     PerformanceNavigationTiming.responseEnd := 130;
     PerformanceNavigationTiming.domInteractive := 300;
     PerformanceNavigationTiming.domContentLoadedEventStart := 310;
     PerformanceNavigationTiming.domContentLoadedEventEnd := 312;
     PerformanceNavigationTiming.domComplete := 400;
     PerformanceNavigationTiming.loadEventStart := 400;
     PerformanceNavigationTiming.loadEventEnd := 405;
     PerformanceNavigationTiming.duration := 405;
     PerformanceNavigationTiming.transferSize := 180;
     PerformanceNavigationTiming.encodedBodySize := 0;
     PerformanceNavigationTiming.decodedBodySize := 0 |}%float.

Definition legacy_host : Performance :=
  {| getEntriesByType_NAVIGATION := []; timing := legacy_timing |}.

Definition modern_host (loadEventEnd : float) : Performance :=
  {| getEntriesByType_NAVIGATION := [modern_entry loadEventEnd];
     timing := legacy_timing |}.

Definition sample_context : PluginContext := {| record := 7%nat |}.

Definition sample_type : string := "performance_navigation_event".

Definition other_context : PluginContext := {| record := 8%nat |}.

(** A legacy page right after its [load] event: initialized, the listener
    has fired, the closure is waiting for its turn. *)
Definition legacy_page_after_load : World :=
  run sample_type [CallLoad sample_context; LoadSignal]
    (newWorld (Some legacy_host)).

(** A modern page that was initialized while loading and has now finished. *)
Definition modern_page_loaded : World :=
  run sample_type
    [CallLoad sample_context; HostUpdate (Some (modern_host 405))]
    (newWorld (Some (modern_host 0))).

(** The shape of every offset property of the Level 1 literal,
    [raw > 0 ? raw - origin : 0], read as a relation between the raw
    timestamp and the property. *)
Definition Level1Offset (origin raw out : Z) : Prop :=
  (0 < raw -> out = raw - origin) /\
  (raw <= 0 -> out = 0) /\
  (origin <= raw -> 0 <= out).

(** ** Vocabulary of the further properties *)

(** The twelve offset properties of the Level 1 literal: the raw timestamp
    each one is computed from, and the property of the event. *)
Definition level1_offsets
  : list ((PerformanceTiming.t -> Z) * (NavigationEvent.t Z -> Z)) :=
  [ (PerformanceTiming.unloadEventStart, NavigationEvent.unloadEventStart);
    (PerformanceTiming.redirectStart, NavigationEvent.redirectStart);
    (PerformanceTiming.fetchStart, NavigationEvent.fetchStart);
    (PerformanceTiming.domainLookupStart, NavigationEvent.domainLookupStart);
    (PerformanceTiming.connectStart, NavigationEvent.connectStart);
    (PerformanceTiming.secureConnectionStart,
     NavigationEvent.secureConnectionStart);
    (PerformanceTiming.requestStart, NavigationEvent.requestStart);
    (PerformanceTiming.responseStart, NavigationEvent.responseStart);
    (PerformanceTiming.domInteractive, NavigationEvent.domInteractive);
    (PerformanceTiming.domContentLoadedEventStart,
     NavigationEvent.domContentLoadedEventStart);
    (PerformanceTiming.domComplete, NavigationEvent.domComplete);
    (PerformanceTiming.loadEventStart, NavigationEvent.loadEventStart) ].

(** What the payload of a call tells about its source: the schema version,
    the timing level, and the properties only the Level 2 literal sets. *)
Definition well_tagged (d : EventData) : Prop :=
  match d with
  | Level1Data e =>
      NavigationEvent.version e = "1.0.0" /\
      NavigationEvent.navigationTimingLevel e = 1 /\
      NavigationEvent.initiatorType e = "navigation" /\
      NavigationEvent.startTime e = 0 /\
      NavigationEvent.navigationType e = None /\
      NavigationEvent.redirectCount e = None /\
      NavigationEvent.workerStart e = None /\
      NavigationEvent.workerTime e = None /\
      NavigationEvent.nextHopProtocol e = None /\
      NavigationEvent.headerSize e = None /\
      NavigationEvent.transferSize e = None /\
      NavigationEvent.compressionRatio e = None
  | Level2Data e =>
      NavigationEvent.version e = "1.0.0" /\
      NavigationEvent.navigationTimingLevel e = 2%float /\
      NavigationEvent.navigationType e <> None /\
      NavigationEvent.redirectCount e <> None /\
      NavigationEvent.workerStart e <> None /\
      NavigationEvent.workerTime e <> None /\
      NavigationEvent.nextHopProtocol e <> None /\
      NavigationEvent.headerSize e <> None /\
      NavigationEvent.transferSize e <> None /\
      NavigationEvent.compressionRatio e <> None
  end.

(** A call with the plugin's event type and a payload that tells its
    source. *)
Definition sound_call (type : string) (c : RecordCall) : Prop :=
  eventType c = type /\ well_tagged (eventData c).

(** The actions at which the plugin can start a capture: an initialization
    and a [load] event. *)
Definition firing (a : Action) : bool :=
  match a with
  | CallLoad _ | LoadSignal => true
  | _ => false
  end.

Definition firings (actions : list Action) : nat :=
  List.length (filter firing actions).

Definition initializes (a : Action) : bool :=
  match a with
  | CallLoad _ => true
  | _ => false
  end.

(** The actions that only switch the plugin or move the host's data on. *)
Definition switching (a : Action) : bool :=
  match a with
  | CallEnable | CallDisable | HostUpdate _ => true
  | _ => false
  end.

Definition updates_host (a : Action) : bool :=
  match a with
  | HostUpdate _ => true
  | _ => false
  end.

(** The page after the first statement of [load],
    [this.recordEvent = context.record]. *)
Definition with_callback (context : PluginContext) (w : World) : World :=
  set_this {| pluginId := pluginId (this w);
              enabled := enabled (this w);
              recordEvent := Some (record context) |} w.

(** The calls a run of initializations on a loaded page makes, one for each
    context, all with the event of the same entry. *)
Definition calls_of (type : string) (entryData : PerformanceNavigationTiming.t)
  (contexts : list PluginContext) : list RecordCall :=
  map (fun context =>
         {| callee := record context;
            eventType := type;
            eventData :=
              Level2Data (eventDataNavigationTimingLevel2 entryData) |})
      contexts.

(** * Properties *)

(** ** Normalization, Level 1 *)

Lemma offset_literal (origin raw : Z) :
  Level1Offset origin raw (if raw >? 0 then raw - origin else 0).
Proof.
  unfold Level1Offset.
  destruct (Z.gtb_spec raw 0) as [Hpos | Hnpos]; repeat split; intros; lia.
Qed.

(** C2: every offset property of a Level 1 event is [raw - navigationStart]
    when the raw timestamp is greater than 0 and 0 otherwise, so it is never
    negative when the raw timestamp is at or after [navigationStart]. *)
Theorem level1_offset_fields (entryData : PerformanceTiming.t) :
  let origin := PerformanceTiming.navigationStart entryData in
  let ev := eventDataNavigationTimingLevel1 entryData in
  Level1Offset origin (PerformanceTiming.unloadEventStart entryData)
    (NavigationEvent.unloadEventStart ev) /\
  Level1Offset origin (PerformanceTiming.redirectStart entryData)
    (NavigationEvent.redirectStart ev) /\
  Level1Offset origin (PerformanceTiming.fetchStart entryData)
    (NavigationEvent.fetchStart ev) /\
  Level1Offset origin (PerformanceTiming.domainLookupStart entryData)
    (NavigationEvent.domainLookupStart ev) /\
  Level1Offset origin (PerformanceTiming.connectStart entryData)
    (NavigationEvent.connectStart ev) /\
  Level1Offset origin (PerformanceTiming.secureConnectionStart entryData)
    (NavigationEvent.secureConnectionStart ev) /\
  Level1Offset origin (PerformanceTiming.requestStart entryData)
    (NavigationEvent.requestStart ev) /\
  Level1Offset origin (PerformanceTiming.responseStart entryData)
    (NavigationEvent.responseStart ev) /\
  Level1Offset origin (PerformanceTiming.domInteractive entryData)
    (NavigationEvent.domInteractive ev) /\
  Level1Offset origin (PerformanceTiming.domContentLoadedEventStart entryData)
    (NavigationEvent.domContentLoadedEventStart ev) /\
  Level1Offset origin (PerformanceTiming.domComplete entryData)
    (NavigationEvent.domComplete ev) /\
  Level1Offset origin (PerformanceTiming.loadEventStart entryData)
    (NavigationEvent.loadEventStart ev).
Proof.
  cbn zeta. unfold eventDataNavigationTimingLevel1; cbn.
  repeat apply conj; apply offset_literal.
Qed.

(** The legacy scenario: request at +200, first byte after 50, response at
    +250 lasting 50, 450 in all, timing level 1. *)
Example level1_scenario :
  let ev := eventDataNavigationTimingLevel1 legacy_timing in
  NavigationEvent.requestStart ev = 200 /\
  NavigationEvent.timeToFirstByte ev = 50 /\
  NavigationEvent.responseStart ev = 250 /\
  NavigationEvent.responseTime ev = 50 /\
  NavigationEvent.duration ev = 450 /\
  NavigationEvent.navigationTimingLevel ev = 1.
Proof. vm_compute. repeat split; reflexivity. Qed.

(** C3, as stated, fails on [responseTime]: with no response start and a
    response end at 1300 the literal gives 0, not 1300 - 0. *)
Lemma level1_responseTime_not_plain_difference :
  NavigationEvent.responseTime
    (eventDataNavigationTimingLevel1 legacy_timing_partial)
  <> PerformanceTiming.responseEnd legacy_timing_partial
     - PerformanceTiming.responseStart legacy_timing_partial.
Proof. vm_compute. discriminate. Qed.

(** C3, amended: in a Level 1 event [promptForUnload], [redirectTime], [dns],
    [connect], [domContentLoaded], [domProcessingTime], [loadEventTime] and
    [duration] are the later boundary minus the earlier one, unguarded and
    unclamped, and so is [timeToFirstByte]; [responseTime] is
    [responseEnd - responseStart] only when [responseStart] is greater than 0
    and 0 otherwise. *)
Theorem level1_duration_fields (entryData : PerformanceTiming.t) :
  let ev := eventDataNavigationTimingLevel1 entryData in
  NavigationEvent.promptForUnload ev
  = PerformanceTiming.unloadEventEnd entryData
    - PerformanceTiming.unloadEventStart entryData /\
  NavigationEvent.redirectTime ev
  = PerformanceTiming.redirectEnd entryData
    - PerformanceTiming.redirectStart entryData /\
  NavigationEvent.dns ev
  = PerformanceTiming.domainLookupEnd entryData
    - PerformanceTiming.domainLookupStart entryData /\
  NavigationEvent.connect ev
  = PerformanceTiming.connectEnd entryData
    - PerformanceTiming.connectStart entryData /\
  NavigationEvent.domContentLoaded ev
  = PerformanceTiming.domContentLoadedEventEnd entryData
    - PerformanceTiming.domContentLoadedEventStart entryData /\
  NavigationEvent.domProcessingTime ev
  = PerformanceTiming.loadEventStart entryData
    - PerformanceTiming.responseEnd entryData /\
  NavigationEvent.loadEventTime ev
  = PerformanceTiming.loadEventEnd entryData
    - PerformanceTiming.loadEventStart entryData /\
  NavigationEvent.duration ev
  = PerformanceTiming.loadEventEnd entryData
    - PerformanceTiming.navigationStart entryData /\
  NavigationEvent.timeToFirstByte ev
  = PerformanceTiming.responseStart entryData
    - PerformanceTiming.requestStart entryData /\
  (0 < PerformanceTiming.responseStart entryData ->
   NavigationEvent.responseTime ev
   = PerformanceTiming.responseEnd entryData
     - PerformanceTiming.responseStart entryData) /\
  (PerformanceTiming.responseStart entryData <= 0 ->
   NavigationEvent.responseTime ev = 0).
Proof.
  cbn zeta. unfold eventDataNavigationTimingLevel1; cbn.
  repeat (split; [reflexivity | ]).
  destruct (Z.gtb_spec (PerformanceTiming.responseStart entryData) 0);
    split; intros; (reflexivity || lia).
Qed.

(** ** Guarded and unguarded durations, both levels *)

(** Two concrete binary64 numbers are told apart by comparing both with the
    second one. *)
Ltac float_differ :=
  match goal with
  | |- ?x <> ?y =>
      let H := fresh in
      intro H; apply (f_equal (fun z => PrimFloat.eqb z y)) in H;
      vm_compute in H; discriminate H
  end.

(** C4, as stated, fails on both paths: a connection that has an end at 1100
    but no start gives [connect = 1100] at Level 1, and a name lookup that
    starts at the time origin and ends at 20 gives [dns = 20] at Level 2. *)
Lemma duration_with_zero_boundary_not_zero :
  (PerformanceTiming.connectStart legacy_timing_partial = 0 /\
   NavigationEvent.connect
     (eventDataNavigationTimingLevel1 legacy_timing_partial) <> 0) /\
  (PerformanceNavigationTiming.domainLookupStart modern_entry_empty_body
   = 0%float /\
   NavigationEvent.dns
     (eventDataNavigationTimingLevel2 modern_entry_empty_body) <> 0%float).
Proof.
  split; split; try reflexivity.
  - vm_compute. discriminate.
  - float_differ.
Qed.

(** C4, amended: on both paths the durations that default to 0 are the
    guarded ones, when their earlier boundary is not greater than 0:
    [tlsTime] (on [secureConnectionStart]), [responseTime] (on
    [responseStart]) and, at Level 2, [workerTime] (on [workerStart]).  The
    others never default: [promptForUnload], [redirectTime], [dns],
    [connect], [timeToFirstByte], [domContentLoaded], [domProcessingTime]
    and [loadEventTime] are the later boundary minus the earlier one on both
    paths, and [duration] is [loadEventEnd - navigationStart] at Level 1 and
    a copy of the entry's [duration] at Level 2.  So with an earlier boundary
    of 0 a Level 1 duration of these is its later boundary, not 0. *)
Theorem durations_at_zero_boundary
  (legacy : PerformanceTiming.t) (entry : PerformanceNavigationTiming.t) :
  let ev1 := eventDataNavigationTimingLevel1 legacy in
  let ev2 := eventDataNavigationTimingLevel2 entry in
  ((PerformanceTiming.secureConnectionStart legacy <= 0 ->
    NavigationEvent.tlsTime ev1 = 0) /\
   (PerformanceTiming.responseStart legacy <= 0 ->
    NavigationEvent.responseTime ev1 = 0) /\
   NavigationEvent.promptForUnload ev1
   = PerformanceTiming.unloadEventEnd legacy
     - PerformanceTiming.unloadEventStart legacy /\
   NavigationEvent.redirectTime ev1
   = PerformanceTiming.redirectEnd legacy
     - PerformanceTiming.redirectStart legacy /\
   NavigationEvent.dns ev1
   = PerformanceTiming.domainLookupEnd legacy
     - PerformanceTiming.domainLookupStart legacy /\
   NavigationEvent.connect ev1
   = PerformanceTiming.connectEnd legacy
     - PerformanceTiming.connectStart legacy /\
   NavigationEvent.timeToFirstByte ev1
   = PerformanceTiming.responseStart legacy
     - PerformanceTiming.requestStart legacy /\
   NavigationEvent.domContentLoaded ev1
   = PerformanceTiming.domContentLoadedEventEnd legacy
     - PerformanceTiming.domContentLoadedEventStart legacy /\
   NavigationEvent.domProcessingTime ev1
   = PerformanceTiming.loadEventStart legacy
     - PerformanceTiming.responseEnd legacy /\
   NavigationEvent.loadEventTime ev1
   = PerformanceTiming.loadEventEnd legacy
     - PerformanceTiming.loadEventStart legacy /\
   NavigationEvent.duration ev1
   = PerformanceTiming.loadEventEnd legacy
     - PerformanceTiming.navigationStart legacy /\
   (PerformanceTiming.unloadEventStart legacy = 0 ->
    NavigationEvent.promptForUnload ev1
    = PerformanceTiming.unloadEventEnd legacy) /\
   (PerformanceTiming.redirectStart legacy = 0 ->
    NavigationEvent.redirectTime ev1 = PerformanceTiming.redirectEnd legacy) /\
   (PerformanceTiming.domainLookupStart legacy = 0 ->
    NavigationEvent.dns ev1 = PerformanceTiming.domainLookupEnd legacy) /\
   (PerformanceTiming.connectStart legacy = 0 ->
    NavigationEvent.connect ev1 = PerformanceTiming.connectEnd legacy) /\
   (PerformanceTiming.requestStart legacy = 0 ->
    NavigationEvent.timeToFirstByte ev1
    = PerformanceTiming.responseStart legacy) /\
   (PerformanceTiming.domContentLoadedEventStart legacy = 0 ->
    NavigationEvent.domContentLoaded ev1
    = PerformanceTiming.domContentLoadedEventEnd legacy) /\
   (PerformanceTiming.responseEnd legacy = 0 ->
    NavigationEvent.domProcessingTime ev1
    = PerformanceTiming.loadEventStart legacy) /\
   (PerformanceTiming.loadEventStart legacy = 0 ->
    NavigationEvent.loadEventTime ev1 = PerformanceTiming.loadEventEnd legacy) /\
   (PerformanceTiming.navigationStart legacy = 0 ->
    NavigationEvent.duration ev1 = PerformanceTiming.loadEventEnd legacy)) /\
  ((gt0 (PerformanceNavigationTiming.workerStart entry) = false ->
    NavigationEvent.workerTime ev2 = Some 0%float) /\
   (gt0 (PerformanceNavigationTiming.secureConnectionStart entry) = false ->
    NavigationEvent.tlsTime ev2 = 0%float) /\
   (gt0 (PerformanceNavigationTiming.responseStart entry) = false ->
    NavigationEvent.responseTime ev2 = 0%float) /\
   NavigationEvent.promptForUnload ev2
   = (PerformanceNavigationTiming.unloadEventEnd entry
      - PerformanceNavigationTiming.unloadEventStart entry)%float /\
   NavigationEvent.redirectTime ev2
   = (PerformanceNavigationTiming.redirectEnd entry
      - PerformanceNavigationTiming.redirectStart entry)%float /\
   NavigationEvent.dns ev2
   = (PerformanceNavigationTiming.domainLookupEnd entry
      - PerformanceNavigationTiming.domainLookupStart entry)%float /\
   NavigationEvent.connect ev2
   = (PerformanceNavigationTiming.connectEnd entry
      - PerformanceNavigationTiming.connectStart entry)%float /\
   NavigationEvent.timeToFirstByte ev2
   = (PerformanceNavigationTiming.responseStart entry
      - PerformanceNavigationTiming.requestStart entry)%float /\
   NavigationEvent.domContentLoaded ev2
   = (PerformanceNavigationTiming.domContentLoadedEventEnd entry
      - PerformanceNavigationTiming.domContentLoadedEventStart entry)%float /\
   NavigationEvent.domProcessingTime ev2
   = (PerformanceNavigationTiming.loadEventStart entry
      - PerformanceNavigationTiming.responseEnd entry)%float /\
   NavigationEvent.loadEventTime ev2
   = (PerformanceNavigationTiming.loadEventEnd entry
      - PerformanceNavigationTiming.loadEventStart entry)%float /\
   NavigationEvent.duration ev2 = PerformanceNavigationTiming.duration entry).
Proof.
  cbn zeta. split.
  - unfold eventDataNavigationTimingLevel1; cbn.
    repeat apply conj; try reflexivity; intros Hzero;
      try (rewrite Hzero; apply Z.sub_0_r).
    + destruct (Z.gtb_spec (PerformanceTiming.secureConnectionStart legacy) 0);
        [lia | reflexivity].
    + destruct (Z.gtb_spec (PerformanceTiming.responseStart legacy) 0);
        [lia | reflexivity].
  - unfold eventDataNavigationTimingLevel2; cbn.
    repeat apply conj; try reflexivity; intros Hguard; rewrite Hguard;
      reflexivity.
Qed.

(** ** Normalization, Level 2: transfer metrics *)

(** C5: in a Level 2 event [headerSize] is [transferSize - encodedBodySize];
    [compressionRatio] is [decodedBodySize / encodedBodySize] when
    [encodedBodySize > 0] and 0 otherwise, in particular when
    [encodedBodySize] is 0, so no quotient by zero is ever formed; 500
    transferred with a body of 300 decoding to 900 gives 200 and 3. *)
Theorem level2_transfer_metrics (entryData : PerformanceNavigationTiming.t) :
  let ev := eventDataNavigationTimingLevel2 entryData in
  let encoded := PerformanceNavigationTiming.encodedBodySize entryData in
  let decoded := PerformanceNavigationTiming.decodedBodySize entryData in
  NavigationEvent.headerSize ev
  = Some (PerformanceNavigationTiming.transferSize entryData - encoded)%float /\
  (PrimFloat.ltb 0 encoded = true ->
   NavigationEvent.compressionRatio ev = Some (decoded / encoded)%float) /\
  (PrimFloat.ltb 0 encoded = false ->
   NavigationEvent.compressionRatio ev = Some 0%float) /\
  (encoded = 0%float -> NavigationEvent.compressionRatio ev = Some 0%float) /\
  (let sample := eventDataNavigationTimingLevel2 (modern_entry 405) in
   NavigationEvent.headerSize sample = Some 200%float /\
   NavigationEvent.compressionRatio sample = Some 3%float).
Proof.
  cbn zeta. unfold eventDataNavigationTimingLevel2, gt0; cbn.
  split; [reflexivity | ].
  split; [intros Hpos; rewrite Hpos; reflexivity | ].
  split; [intros Hnpos; rewrite Hnpos; reflexivity | ].
  split; [intros Hzero; rewrite Hzero; reflexivity | ].
  split; vm_compute; reflexivity.
Qed.

(** ** Has the load event fired? *)

Lemma Boolean_true_iff (x : float) :
  Boolean x = true <->
  classify x <> PZero /\ classify x <> NZero /\ classify x <> NaN.
Proof.
  unfold Boolean. destruct (classify x); split;
    try (intros _; repeat split; discriminate);
    try discriminate; try reflexivity;
    intros (Hp & Hn & Hnan); congruence.
Qed.

(** C6: [hasTheWindowLoadEventFired] answers true exactly when the host has
    a [performance] object with at least one navigation entry and the first
    entry's [loadEventEnd] is a number other than zero; without a
    [performance] object, or without navigation entries, it answers false. *)
Theorem hasTheWindowLoadEventFired_spec (w : World) :
  (hasTheWindowLoadEventFired w = true <->
   exists p navData rest,
     performance w = Some p /\
     getEntriesByType_NAVIGATION p = navData :: rest /\
     classify (PerformanceNavigationTiming.loadEventEnd navData) <> PZero /\
     classify (PerformanceNavigationTiming.loadEventEnd navData) <> NZero /\
     classify (PerformanceNavigationTiming.loadEventEnd navData) <> NaN) /\
  (performance w = None -> hasTheWindowLoadEventFired w = false) /\
  (forall p, performance w = Some p -> getEntriesByType_NAVIGATION p = [] ->
             hasTheWindowLoadEventFired w = false).
Proof.
  unfold hasTheWindowLoadEventFired. repeat split.
  - destruct (performance w) as [p | ]; [ | discriminate].
    destruct (getEntriesByType_NAVIGATION p) as [ | navData rest] eqn:Hentries;
      [discriminate | ].
    intros Htruthy. exists p, navData, rest.
    repeat split; try reflexivity; apply Boolean_true_iff in Htruthy; tauto.
  - intros (p & navData & rest & Hp & Hentries & Hnonzero).
    rewrite Hp, Hentries. apply Boolean_true_iff. exact Hnonzero.
  - intros Hnone. rewrite Hnone. reflexivity.
  - intros p Hp Hentries. rewrite Hp, Hentries. reflexivity.
Qed.

(** A finished load (end at 405) is seen; a pending one (end still 0) and a
    host without entries are not. *)
Example hasTheWindowLoadEventFired_samples :
  hasTheWindowLoadEventFired
    (set_performance (Some (modern_host 405)) (newWorld None)) = true /\
  hasTheWindowLoadEventFired
    (set_performance (Some (modern_host 0)) (newWorld None)) = false /\
  hasTheWindowLoadEventFired (newWorld (Some legacy_host)) = false /\
  hasTheWindowLoadEventFired (newWorld None) = false.
Proof. vm_compute. repeat split; reflexivity. Qed.

(** ** Dispatch, recording and lifecycle *)

Section Lifecycle.

Variable PERFORMANCE_NAVIGATION_EVENT_TYPE : string.

Local Abbreviation TYPE := PERFORMANCE_NAVIGATION_EVENT_TYPE.

(** C1: a firing of [eventListener] on a host whose navigation query is
    empty runs the Level 1 handler and nothing else: the closure is deferred,
    nothing is recorded yet, and when the closure runs the event it hands to
    the callback has [navigationTimingLevel = 1].  On a host with one or more
    entries it runs the Level 2 handler on the first entry and nothing else:
    no closure is deferred, and the event handed to the callback is built
    from that entry and has [navigationTimingLevel = 2]. *)
Theorem eventListener_selects_level (w : World) (p : Performance) :
  performance w = Some p ->
  match getEntriesByType_NAVIGATION p with
  | [] =>
      eventListener TYPE w
      = Returns (performanceNavigationEventHandlerTimingLevel1 w) /\
      timers (performanceNavigationEventHandlerTimingLevel1 w)
      = timers w ++ [RecordNavigation] /\
      recorded (performanceNavigationEventHandlerTimingLevel1 w) = recorded w /\
      (forall w' p' f,
          performance w' = Some p' ->
          recordEvent (this w') = Some f ->
          exists ev,
            ev = eventDataNavigationTimingLevel1 (timing p') /\
            NavigationEvent.navigationTimingLevel ev = 1 /\
            recordNavigation TYPE w'
            = Returns (call_recordEvent f TYPE (Level1Data ev) w'))
  | entryData :: _ =>
      eventListener TYPE w
      = Returns (performanceNavigationEventHandlerTimingLevel2 TYPE entryData w) /\
      timers (performanceNavigationEventHandlerTimingLevel2 TYPE entryData w)
      = timers w /\
      (forall f,
          recordEvent (this w) = Some f ->
          exists ev,
            ev = eventDataNavigationTimingLevel2 entryData /\
            NavigationEvent.navigationTimingLevel ev = 2%float /\
            performanceNavigationEventHandlerTimingLevel2 TYPE entryData w
            = call_recordEvent f TYPE (Level2Data ev) w)
  end.
Proof.
  intros Hperf. unfold eventListener. rewrite Hperf.
  destruct (getEntriesByType_NAVIGATION p) as [ | entryData rest].
  - repeat split.
    intros w' p' f Hperf' Hcallback.
    exists (eventDataNavigationTimingLevel1 (timing p')).
    repeat split. unfold recordNavigation. rewrite Hperf', Hcallback.
    reflexivity.
  - split; [reflexivity | ].
    unfold performanceNavigationEventHandlerTimingLevel2.
    split.
    + destruct (recordEvent (this w)); reflexivity.
    + intros f Hcallback. rewrite Hcallback.
      exists (eventDataNavigationTimingLevel2 entryData).
      repeat split.
Qed.

(** *** A firing without a callback *)

Lemma recordNavigation_without_callback (w : World) (p : Performance) :
  performance w = Some p -> recordEvent (this w) = None ->
  recordNavigation TYPE w = Returns w.
Proof.
  intros Hperf Hnone. unfold recordNavigation. rewrite Hperf, Hnone.
  reflexivity.
Qed.

Lemma runTasks_without_callback (tasks : list Task) (w : World)
  (p : Performance) :
  performance w = Some p -> recordEvent (this w) = None ->
  runTasks TYPE tasks w = w.
Proof.
  intros Hperf Hnone. induction tasks as [ | [] rest IH]; cbn.
  - reflexivity.
  - rewrite (recordNavigation_without_callback w p Hperf Hnone). exact IH.
Qed.

(** C9: when no callback has been set, a firing records nothing and raises
    nothing.  The Level 2 handler leaves the world as it is; the Level 1
    handler only defers its closure, which leaves the world as it is when it
    runs; so once the timers had their turn the world is the one before the
    firing, with an empty timer queue: no event kept for later, the plugin
    unchanged. *)
Theorem firing_without_callback (w : World) (p : Performance) :
  performance w = Some p ->
  recordEvent (this w) = None ->
  (forall entryData,
      performanceNavigationEventHandlerTimingLevel2 TYPE entryData w = w) /\
  recordNavigation TYPE w = Returns w /\
  exists w',
    eventListener TYPE w = Returns w' /\
    this w' = this w /\
    recorded w' = recorded w /\
    runTimers TYPE w' = set_timers [] w.
Proof.
  intros Hperf Hnone. split; [ | split].
  - intros entryData. unfold performanceNavigationEventHandlerTimingLevel2.
    rewrite Hnone. reflexivity.
  - exact (recordNavigation_without_callback w p Hperf Hnone).
  - unfold eventListener. rewrite Hperf.
    destruct (getEntriesByType_NAVIGATION p) as [ | entryData rest];
      eexists; (split; [reflexivity | ]).
    + repeat split. unfold runTimers.
      apply runTasks_without_callback with (p := p); assumption.
    + unfold performanceNavigationEventHandlerTimingLevel2. rewrite Hnone.
      repeat split. unfold runTimers.
      apply runTasks_without_callback with (p := p); assumption.
Qed.

(** *** Initialization *)

Lemma fired_has_entry (w : World) :
  hasTheWindowLoadEventFired w = true ->
  exists p entryData rest,
    performance w = Some p /\
    getEntriesByType_NAVIGATION p = entryData :: rest.
Proof.
  unfold hasTheWindowLoadEventFired.
  destruct (performance w) as [p | ]; [ | discriminate].
  destruct (getEntriesByType_NAVIGATION p) as [ | entryData rest] eqn:Hentries;
    [discriminate | ].
  intros _. exists p, entryData, rest. split; [reflexivity | exact Hentries].
Qed.

(** C7: [load] stores the callback and returns.  Enabled and the load event
    already fired: it is the call of [eventListener] on the world with the
    callback stored, which records the Level 2 event of the first entry at
    once and leaves the [load] listeners of [window] as they were.  Enabled
    and the load event not fired: it registers [eventListener] for [load];
    nothing is recorded and nothing deferred.  Disabled: it only stores the
    callback. *)
Theorem load_spec (context : PluginContext) (w : World) :
  let stored :=
    set_this {| pluginId := pluginId (this w);
                enabled := enabled (this w);
                recordEvent := Some (record context) |} w in
  exists w',
    load TYPE context w = Returns w' /\
    recordEvent (this w') = Some (record context) /\
    (enabled (this w) = true -> hasTheWindowLoadEventFired w = true ->
     eventListener TYPE stored = Returns w' /\
     loadListeners w' = loadListeners w /\
     timers w' = timers w /\
     exists p entryData rest,
       performance w = Some p /\
       getEntriesByType_NAVIGATION p = entryData :: rest /\
       recorded w'
       = recorded w
         ++ [{| callee := record context;
                eventType := TYPE;
                eventData :=
                  Level2Data (eventDataNavigationTimingLevel2 entryData) |}]) /\
    (enabled (this w) = true -> hasTheWindowLoadEventFired w = false ->
     w' = addEventListener EventListener stored /\
     existsb (Listener_eqb EventListener) (loadListeners w') = true /\
     recorded w' = recorded w /\
     timers w' = timers w) /\
    (enabled (this w) = false -> w' = stored).
Proof.
  cbn zeta. unfold load. cbn [this set_this enabled].
  change (hasTheWindowLoadEventFired
            (set_this {| pluginId := pluginId (this w);
                         enabled := enabled (this w);
                         recordEvent := Some (record context) |} w))
    with (hasTheWindowLoadEventFired w).
  destruct (enabled (this w)) eqn:Henabled.
  - destruct (hasTheWindowLoadEventFired w) eqn:Hfired.
    + destruct (fired_has_entry w Hfired) as (p & entryData & rest & Hp & He).
      unfold eventListener. cbn [performance set_this]. rewrite Hp, He.
      eexists. split; [reflexivity | ].
      split; [reflexivity | ].
      split; [ | split; [discriminate | discriminate]].
      intros _ _. repeat split.
      exists p, entryData, rest. repeat split; assumption.
    + eexists. split; [reflexivity | ].
      unfold addEventListener. cbn [loadListeners set_this].
      destruct (existsb (Listener_eqb EventListener) (loadListeners w))
        eqn:Hregistered.
      * split; [reflexivity | ].
        split; [discriminate | ].
        split; [ | discriminate].
        intros _ _. repeat split. exact Hregistered.
      * split; [reflexivity | ].
        split; [discriminate | ].
        split; [ | discriminate].
        intros _ _. repeat split. cbn.
        rewrite existsb_app. cbn. apply orb_true_r.
  - eexists. split; [reflexivity | ].
    split; [reflexivity | ].
    split; [discriminate | ].
    split; [discriminate | ].
    reflexivity.
Qed.

(** *** What the methods leave alone *)

Lemma eventListener_frame (w w' : World) :
  eventListener TYPE w = Returns w' ->
  this w' = this w /\ loadListeners w' = loadListeners w.
Proof.
  unfold eventListener, performanceNavigationEventHandlerTimingLevel2.
  destruct (performance w) as [p | ]; [ | discriminate].
  destruct (getEntriesByType_NAVIGATION p) as [ | entryData rest];
    intros Hret; inversion Hret; subst w'.
  - split; reflexivity.
  - destruct (recordEvent (this w)); split; reflexivity.
Qed.

Lemma recordNavigation_frame (w w' : World) :
  recordNavigation TYPE w = Returns w' ->
  this w' = this w /\ loadListeners w' = loadListeners w.
Proof.
  unfold recordNavigation.
  destruct (performance w) as [p | ]; [ | discriminate].
  destruct (recordEvent (this w)); intros Hret; inversion Hret; subst w';
    split; reflexivity.
Qed.

Lemma invoke_frame (l : Listener) (w : World) :
  this (invoke TYPE l w) = this w /\
  loadListeners (invoke TYPE l w) = loadListeners w.
Proof.
  destruct l as [ | id]; cbn; [ | split; reflexivity].
  destruct (eventListener TYPE w) as [w' | ] eqn:Hcall;
    [exact (eventListener_frame w w' Hcall) | split; reflexivity].
Qed.

Lemma fold_invoke_frame (ls : list Listener) (w : World) :
  let w' := fold_left (fun acc l => invoke TYPE l acc) ls w in
  this w' = this w /\ loadListeners w' = loadListeners w.
Proof.
  revert w. induction ls as [ | l ls IH]; intros w; cbn.
  - split; reflexivity.
  - destruct (IH (invoke TYPE l w)) as [Hthis Hls].
    destruct (invoke_frame l w) as [Hthis' Hls'].
    split; congruence.
Qed.

(** *** Registrations of the listener *)

Lemma not_registered_filter (ls : list Listener) :
  existsb (Listener_eqb EventListener) ls = false ->
  filter (Listener_eqb EventListener) ls = [].
Proof.
  induction ls as [ | [ | id] ls IH]; cbn; [reflexivity | discriminate | exact IH].
Qed.

Lemma registered_filter (ls : list Listener) :
  existsb (Listener_eqb EventListener) ls = true ->
  filter (Listener_eqb EventListener) ls <> [].
Proof.
  induction ls as [ | [ | id] ls IH]; cbn; [discriminate | discriminate | exact IH].
Qed.

Lemma registrations_add (w : World) :
  registrations (addEventListener EventListener w)
  = if existsb (Listener_eqb EventListener) (loadListeners w)
    then registrations w else 1%nat.
Proof.
  unfold addEventListener, registrations.
  destruct (existsb (Listener_eqb EventListener) (loadListeners w)) eqn:Hreg;
    [reflexivity | ].
  cbn [loadListeners set_loadListeners]. rewrite filter_app.
  rewrite (not_registered_filter _ Hreg). reflexivity.
Qed.

Lemma registrations_remove (w : World) :
  registrations (removeEventListener EventListener w) = 0%nat.
Proof.
  unfold removeEventListener, registrations.
  cbn [loadListeners set_loadListeners].
  induction (loadListeners w) as [ | [ | id] ls IH]; cbn;
    [reflexivity | exact IH | exact IH].
Qed.

Lemma tidy_frame (w w' : World) :
  this w' = this w -> loadListeners w' = loadListeners w ->
  tidy w -> tidy w'.
Proof.
  unfold tidy, registrations. intros Hthis Hls. rewrite Hthis, Hls. tauto.
Qed.

Lemma tidy_add (w : World) :
  (registrations w <= 1)%nat -> enabled (this w) = true ->
  tidy (addEventListener EventListener w).
Proof.
  intros Hle Hon. split.
  - rewrite registrations_add.
    destruct (existsb (Listener_eqb EventListener) (loadListeners w));
      [exact Hle | apply le_n].
  - unfold addEventListener.
    destruct (existsb (Listener_eqb EventListener) (loadListeners w));
      cbn [this set_loadListeners]; rewrite Hon; discriminate.
Qed.

Lemma tidy_enable (w : World) : tidy w -> tidy (enable w).
Proof.
  intros Htidy. unfold enable.
  destruct (enabled (this w)); [exact Htidy | ].
  apply tidy_add; [exact (proj1 Htidy) | reflexivity].
Qed.

Lemma tidy_disable (w : World) : tidy w -> tidy (disable w).
Proof.
  intros Htidy. unfold disable.
  destruct (enabled (this w)); cbn [negb]; [ | exact Htidy].
  split; intros; rewrite registrations_remove; auto.
Qed.

Lemma tidy_load (context : PluginContext) (w w' : World) :
  load TYPE context w = Returns w' -> tidy w -> tidy w'.
Proof.
  unfold load. cbn [this set_this enabled]. intros Hret Htidy.
  assert (Hstored : tidy
            (set_this {| pluginId := pluginId (this w);
                         enabled := enabled (this w);
                         recordEvent := Some (record context) |} w))
    by exact Htidy.
  destruct (enabled (this w)) eqn:Henabled.
  - destruct (hasTheWindowLoadEventFired _).
    + destruct (eventListener_frame _ _ Hret) as [Hthis Hls].
      exact (tidy_frame _ _ Hthis Hls Hstored).
    + inversion Hret; subst w'.
      apply tidy_add; [exact (proj1 Htidy) | reflexivity].
  - inversion Hret; subst w'. exact Hstored.
Qed.

Lemma tidy_step (a : Action) (w : World) : tidy w -> tidy (step TYPE a w).
Proof.
  intros Htidy. destruct a as [context | | | | | h]; cbn.
  - destruct (load TYPE context w) as [w' | ] eqn:Hload;
      [exact (tidy_load context w w' Hload Htidy) | exact Htidy].
  - exact (tidy_enable w Htidy).
  - exact (tidy_disable w Htidy).
  - unfold dispatchLoad.
    destruct (fold_invoke_frame (loadListeners w) w) as [Hthis Hls].
    exact (tidy_frame _ _ Hthis Hls Htidy).
  - unfold runNextTimer.
    destruct (timers w) as [ | [] rest]; [exact Htidy | ]. cbn.
    destruct (recordNavigation TYPE (set_timers rest w)) as [w' | ] eqn:Hrun.
    + destruct (recordNavigation_frame _ _ Hrun) as [Hthis Hls].
      exact (tidy_frame _ _ Hthis Hls Htidy).
    + exact Htidy.
  - exact Htidy.
Qed.

Lemma tidy_run (actions : list Action) (w : World) :
  tidy w -> tidy (run TYPE actions w).
Proof.
  revert w. induction actions as [ | a actions IH]; intros w Htidy; cbn.
  - exact Htidy.
  - apply IH. exact (tidy_step a w Htidy).
Qed.

Lemma reachable_tidy (w : World) : reachable TYPE w -> tidy w.
Proof.
  intros (h & actions & Hw). subst w. apply tidy_run.
  split; [apply Nat.le_0_l | reflexivity].
Qed.

(** *** Firing [load] *)

Lemma fold_invoke_unregistered (ls : list Listener) (w : World) :
  filter (Listener_eqb EventListener) ls = [] ->
  fold_left (fun acc l => invoke TYPE l acc) ls w = w.
Proof.
  revert w. induction ls as [ | [ | id] ls IH]; intros w; cbn.
  - reflexivity.
  - discriminate.
  - exact (IH w).
Qed.

Lemma fold_invoke_registered_once (ls : list Listener) (w : World) :
  List.length (filter (Listener_eqb EventListener) ls) = 1%nat ->
  fold_left (fun acc l => invoke TYPE l acc) ls w
  = invoke TYPE EventListener w.
Proof.
  revert w. induction ls as [ | [ | id] ls IH]; intros w; cbn.
  - discriminate.
  - intros Hone. apply fold_invoke_unregistered.
    destruct (filter (Listener_eqb EventListener) ls); [reflexivity | ].
    discriminate.
  - exact (IH w).
Qed.

(** The browser's dispatch calls [eventListener] as often as it is
    registered: not at all, or once. *)
Lemma dispatchLoad_tidy (w : World) :
  tidy w ->
  dispatchLoad TYPE w
  = match registrations w with
    | O => w
    | S _ => invoke TYPE EventListener w
    end.
Proof.
  intros [Hle _]. unfold dispatchLoad. unfold registrations in *.
  destruct (List.length (filter (Listener_eqb EventListener) (loadListeners w)))
    as [ | [ | n]] eqn:Hcount.
  - apply fold_invoke_unregistered.
    destruct (filter (Listener_eqb EventListener) (loadListeners w));
      [reflexivity | discriminate].
  - apply fold_invoke_registered_once. exact Hcount.
  - exfalso. inversion Hle as [ | ? Hle']. inversion Hle'.
Qed.

(** *** Enabling and disabling *)

Lemma enable_enabled (w : World) : enabled (this (enable w)) = true.
Proof.
  unfold enable. destruct (enabled (this w)) eqn:Hon; [exact Hon | ].
  unfold addEventListener. cbn [loadListeners set_this].
  destruct (existsb (Listener_eqb EventListener) (loadListeners w));
    reflexivity.
Qed.

Lemma disable_disabled (w : World) : enabled (this (disable w)) = false.
Proof.
  unfold disable. destruct (enabled (this w)) eqn:Hon; [reflexivity | exact Hon].
Qed.

(** C8: [enable] on an enabled plugin and [disable] on a disabled one
    return at once and change nothing, so either call made twice in a row is
    the call made once.  On any page the histories of this model lead to, the
    listener is then registered at most once (exactly once when the plugin
    was disabled before), and a [load] event calls [eventListener] at most
    once. *)
Theorem enable_disable_idempotent (w : World) :
  (enabled (this w) = true -> enable w = w) /\
  (enabled (this w) = false -> disable w = w) /\
  enable (enable w) = enable w /\
  disable (disable w) = disable w /\
  (reachable TYPE w ->
   (registrations (enable (enable w)) <= 1)%nat /\
   (enabled (this w) = false ->
    registrations (enable (enable w)) = 1%nat) /\
   (dispatchLoad TYPE (enable (enable w)) = enable (enable w) \/
    dispatchLoad TYPE (enable (enable w))
    = invoke TYPE EventListener (enable (enable w)))).
Proof.
  assert (Hon : forall v, enabled (this v) = true -> enable v = v).
  { intros v Hv. unfold enable. rewrite Hv. reflexivity. }
  assert (Hoff : forall v, enabled (this v) = false -> disable v = v).
  { intros v Hv. unfold disable. rewrite Hv. reflexivity. }
  assert (Htwice : enable (enable w) = enable w)
    by exact (Hon _ (enable_enabled w)).
  split; [exact (Hon w) | ].
  split; [exact (Hoff w) | ].
  split; [exact Htwice | ].
  split; [exact (Hoff _ (disable_disabled w)) | ].
  intros Hreach. rewrite Htwice.
  pose proof (tidy_enable w (reachable_tidy w Hreach)) as Htidy.
  split; [exact (proj1 Htidy) | ].
  split.
  - intros Hdisabled.
    destruct (reachable_tidy w Hreach) as [_ Hnone].
    specialize (Hnone Hdisabled).
    unfold enable. rewrite Hdisabled. rewrite registrations_add.
    cbn [loadListeners set_this].
    destruct (existsb (Listener_eqb EventListener) (loadListeners w))
      eqn:Hregistered; [ | reflexivity].
    exfalso. apply (registered_filter _ Hregistered).
    unfold registrations in Hnone.
    destruct (filter (Listener_eqb EventListener) (loadListeners w));
      [reflexivity | discriminate].
  - rewrite (dispatchLoad_tidy _ Htidy).
    destruct (registrations (enable w)); [left | right]; reflexivity.
Qed.

(** *** Initialization while disabled *)

(** C10: [load] stores the callback whether or not the plugin is enabled.
    On a disabled plugin it does nothing else; after a later [enable], a
    [load] event records through that callback: at once with the Level 2
    event when the host has a navigation entry, and otherwise by deferring
    the closure, which records the Level 1 event when it runs. *)
Theorem load_while_disabled_keeps_callback
  (context : PluginContext) (w : World) :
  reachable TYPE w ->
  enabled (this w) = false ->
  exists w1,
    load TYPE context w = Returns w1 /\
    recordEvent (this w1) = Some (record context) /\
    loadListeners w1 = loadListeners w /\
    recorded w1 = recorded w /\
    timers w1 = timers w /\
    forall p,
      let w2 := set_performance (Some p) (enable w1) in
      match getEntriesByType_NAVIGATION p with
      | entryData :: _ =>
          dispatchLoad TYPE w2
          = call_recordEvent (record context) TYPE
              (Level2Data (eventDataNavigationTimingLevel2 entryData)) w2 /\
          recorded (dispatchLoad TYPE w2)
          = recorded w
            ++ [{| callee := record context;
                   eventType := TYPE;
                   eventData :=
                     Level2Data (eventDataNavigationTimingLevel2 entryData) |}]
      | [] =>
          dispatchLoad TYPE w2 = setTimeout RecordNavigation w2 /\
          forall w' p',
            this w' = this (dispatchLoad TYPE w2) ->
            performance w' = Some p' ->
            recordNavigation TYPE w'
            = Returns
                (call_recordEvent (record context) TYPE
                   (Level1Data (eventDataNavigationTimingLevel1 (timing p')))
                   w')
      end.
Proof.
  intros Hreach Hdisabled.
  destruct (reachable_tidy w Hreach) as [_ Hnone].
  specialize (Hnone Hdisabled).
  assert (Hunregistered :
            existsb (Listener_eqb EventListener) (loadListeners w) = false).
  { destruct (existsb (Listener_eqb EventListener) (loadListeners w))
      eqn:Hregistered; [ | reflexivity].
    exfalso. apply (registered_filter _ Hregistered).
    unfold registrations in Hnone.
    destruct (filter (Listener_eqb EventListener) (loadListeners w));
      [reflexivity | discriminate]. }
  unfold load. cbn [this set_this enabled]. rewrite Hdisabled.
  eexists. split; [reflexivity | ].
  repeat (split; [reflexivity | ]).
  intros p. cbn zeta.
  unfold enable. cbn [this set_this enabled].
  unfold addEventListener. cbn [loadListeners set_this].
  rewrite Hunregistered.
  unfold dispatchLoad.
  cbn [loadListeners set_performance set_loadListeners set_this].
  rewrite fold_invoke_registered_once.
  2:{ rewrite filter_app, (not_registered_filter _ Hunregistered).
      reflexivity. }
  unfold invoke, eventListener. cbn [performance set_performance].
  destruct (getEntriesByType_NAVIGATION p) as [ | entryData rest].
  - split; [reflexivity | ].
    intros w' p' Hthis Hperf. unfold recordNavigation.
    rewrite Hperf, Hthis. reflexivity.
  - split; reflexivity.
Qed.

End Lifecycle.

(** ** The theorems at concrete pages *)

(** On a modern host the listener takes the Level 2 handler on the entry; on
    a legacy host it takes the Level 1 handler. *)
Lemma eventListener_selects_level_samples :
  eventListener sample_type (newWorld (Some (modern_host 405)))
  = Returns
      (performanceNavigationEventHandlerTimingLevel2 sample_type
         (modern_entry 405) (newWorld (Some (modern_host 405)))) /\
  eventListener sample_type (newWorld (Some legacy_host))
  = Returns
      (performanceNavigationEventHandlerTimingLevel1
         (newWorld (Some legacy_host))).
Proof.
  split.
  - exact (proj1 (eventListener_selects_level sample_type
                    (newWorld (Some (modern_host 405))) (modern_host 405)
                    eq_refl)).
  - exact (proj1 (eventListener_selects_level sample_type
                    (newWorld (Some legacy_host)) legacy_host eq_refl)).
Defined.

(** A freshly constructed plugin has no callback: the deferred closure
    leaves the page as it is. *)
Lemma firing_without_callback_sample :
  recordNavigation sample_type (newWorld (Some legacy_host))
  = Returns (newWorld (Some legacy_host)).
Proof.
  exact (proj1 (proj2 (firing_without_callback sample_type
                         (newWorld (Some legacy_host)) legacy_host
                         eq_refl eq_refl))).
Defined.

(** A plugin disabled right after construction keeps the callback that
    [load] hands it. *)
Lemma load_while_disabled_sample :
  exists w1,
    load sample_type sample_context
      (run sample_type [CallDisable] (newWorld (Some legacy_host)))
    = Returns w1 /\
    recordEvent (this w1) = Some (record sample_context).
Proof.
  destruct (load_while_disabled_keeps_callback sample_type sample_context
              (run sample_type [CallDisable] (newWorld (Some legacy_host)))
              (ex_intro _ (Some legacy_host)
                 (ex_intro _ [CallDisable] eq_refl))
              eq_refl)
    as (w1 & Hload & Hcallback & _).
  exists w1. split; [exact Hload | exact Hcallback].
Defined.

(** *** Whole histories, evaluated *)

(** The plugin is initialized after the load event: one Level 2 event is
    recorded during [load], and no listener is registered. *)
Example history_load_after_event :
  let w := run sample_type [CallLoad sample_context]
             (newWorld (Some (modern_host 405))) in
  recorded w
  = [{| callee := record sample_context;
        eventType := sample_type;
        eventData :=
          Level2Data (eventDataNavigationTimingLevel2 (modern_entry 405)) |}] /\
  loadListeners w = [] /\ timers w = [].
Proof. cbn zeta. repeat split; reflexivity. Qed.

(** A legacy host: nothing is recorded when [load] fires, and one Level 1
    event once the timer had its turn. *)
Example history_legacy_host :
  let fired := run sample_type [CallLoad sample_context; LoadSignal]
                 (newWorld (Some legacy_host)) in
  recorded fired = [] /\
  timers fired = [RecordNavigation] /\
  recorded (step sample_type TimerTurn fired)
  = [{| callee := record sample_context;
        eventType := sample_type;
        eventData :=
          Level1Data (eventDataNavigationTimingLevel1 legacy_timing) |}] /\
  timers (step sample_type TimerTurn fired) = [].
Proof. cbn zeta. repeat split; reflexivity. Qed.

(** Disabled at initialization, enabled later: the load event is recorded. *)
Example history_disabled_then_enabled :
  recorded
    (run sample_type
       [CallDisable; CallLoad sample_context; CallEnable;
        HostUpdate (Some (modern_host 405)); LoadSignal]
       (newWorld (Some (modern_host 0))))
  = [{| callee := record sample_context;
        eventType := sample_type;
        eventData :=
          Level2Data (eventDataNavigationTimingLevel2 (modern_entry 405)) |}].
Proof. reflexivity. Qed.

(** [enable] twice, then the load event: one event, not two. *)
Example history_enable_twice :
  let w := run sample_type
             [CallLoad sample_context; CallDisable; CallEnable; CallEnable;
              HostUpdate (Some (modern_host 405)); LoadSignal]
             (newWorld (Some (modern_host 0))) in
  loadListeners w = [EventListener] /\
  List.length (recorded w) = 1%nat.
Proof. cbn zeta. split; reflexivity. Qed.

(** [enable] and then [disable] before the load event: nothing recorded. *)
Example history_enable_then_disable :
  recorded
    (run sample_type
       [CallLoad sample_context; CallDisable; CallEnable; CallDisable;
        LoadSignal; TimerTurn]
       (newWorld (Some legacy_host)))
  = [].
Proof. reflexivity. Qed.

(** No callback when the load event fires: nothing recorded, at once or
    after the timer. *)
Example history_without_callback :
  recorded
    (run sample_type [CallDisable; CallEnable; LoadSignal; TimerTurn]
       (newWorld (Some legacy_host)))
  = [] /\
  recorded
    (run sample_type [CallDisable; CallEnable; LoadSignal]
       (newWorld (Some (modern_host 405))))
  = [].
Proof. split; reflexivity. Qed.

(** *** The unconditional theorems at concrete pages *)

(** The legacy scenario through the offset rule: the request starts 200
    after navigation, and a fetch start that was never set stays 0. *)
Lemma level1_offset_fields_sample :
  NavigationEvent.requestStart (eventDataNavigationTimingLevel1 legacy_timing)
  = 200 /\
  NavigationEvent.fetchStart (eventDataNavigationTimingLevel1 legacy_timing)
  = 0.
Proof.
  destruct (level1_offset_fields legacy_timing)
    as (_ & _ & Hfetch & _ & _ & _ & Hrequest & _).
  split.
  - exact (proj1 Hrequest eq_refl).
  - exact (proj1 (proj2 Hfetch) (Z.le_refl 0)).
Defined.

(** Initialization on a page that has finished loading registers nothing. *)
Lemma load_spec_sample :
  exists w',
    load sample_type sample_context (newWorld (Some (modern_host 405)))
    = Returns w' /\
    loadListeners w' = [].
Proof.
  destruct (load_spec sample_type sample_context
              (newWorld (Some (modern_host 405))))
    as (w' & Hload & _ & Hfired & _).
  exists w'. split; [exact Hload | ].
  exact (proj1 (proj2 (Hfired eq_refl eq_refl))).
Defined.

(** Disabled, then enabled twice: one registration. *)
Lemma enable_disable_idempotent_sample :
  registrations
    (enable (enable (run sample_type [CallDisable] (newWorld None))))
  = 1%nat.
Proof.
  destruct (enable_disable_idempotent sample_type
              (run sample_type [CallDisable] (newWorld None)))
    as (_ & _ & _ & _ & Hreach).
  destruct (Hreach (ex_intro _ None (ex_intro _ [CallDisable] eq_refl)))
    as (_ & Honce & _).
  exact (Honce eq_refl).
Defined.

(** * Further properties *)

(** ** Level 1: where the offsets and durations lie *)

Lemma offset_literal_negative (origin raw : Z) :
  (if raw >? 0 then raw - origin else 0) < 0 <-> 0 < raw < origin.
Proof. destruct (Z.gtb_spec raw 0); lia. Qed.

Lemma offset_literal_within (origin finish raw : Z) :
  origin <= finish ->
  raw <= 0 \/ origin <= raw <= finish ->
  0 <= (if raw >? 0 then raw - origin else 0) <= finish - origin.
Proof. intros Hspan Hraw. destruct (Z.gtb_spec raw 0); lia. Qed.

(** X1: the zero guard of the Level 1 offsets tests the raw timestamp, not
    its distance to [navigationStart]: each of the twelve offsets is negative
    exactly when its raw timestamp is positive and earlier than
    [navigationStart]. *)
Theorem level1_offset_negative_iff (entryData : PerformanceTiming.t) :
  Forall
    (fun field =>
       snd field (eventDataNavigationTimingLevel1 entryData) < 0 <->
       0 < fst field entryData < PerformanceTiming.navigationStart entryData)
    level1_offsets.
Proof.
  unfold level1_offsets.
  repeat (apply Forall_cons; [cbn; apply offset_literal_negative | ]).
  apply Forall_nil.
Qed.

(** X2: on a record whose load event ended at or after [navigationStart],
    an offset whose raw timestamp is unset (0) or lies between
    [navigationStart] and [loadEventEnd] lies between 0 and the event's
    [duration]. *)
Theorem level1_offsets_within_duration (entryData : PerformanceTiming.t) :
  PerformanceTiming.navigationStart entryData
  <= PerformanceTiming.loadEventEnd entryData ->
  Forall
    (fun field =>
       fst field entryData <= 0 \/
       PerformanceTiming.navigationStart entryData <= fst field entryData
       <= PerformanceTiming.loadEventEnd entryData ->
       0 <= snd field (eventDataNavigationTimingLevel1 entryData)
       <= NavigationEvent.duration (eventDataNavigationTimingLevel1 entryData))
    level1_offsets.
Proof.
  intros Hspan. unfold level1_offsets.
  repeat (apply Forall_cons;
          [cbn; apply offset_literal_within; exact Hspan | ]).
  apply Forall_nil.
Qed.

(** X3: on a record whose request, response and load event have started
    (raw timestamps greater than 0), the Level 1 event is consistent along
    the timeline: the request offset plus [timeToFirstByte] is the response
    offset; the response offset plus [responseTime] plus [domProcessingTime]
    is the load event's offset; that plus [loadEventTime] is the [duration];
    and when the connection and its secure handshake have started too, the
    handshake's offset plus [tlsTime] is the connection's offset plus
    [connect]. *)
Theorem level1_timeline_adds_up (entryData : PerformanceTiming.t) :
  0 < PerformanceTiming.requestStart entryData ->
  0 < PerformanceTiming.responseStart entryData ->
  0 < PerformanceTiming.loadEventStart entryData ->
  let ev := eventDataNavigationTimingLevel1 entryData in
  NavigationEvent.requestStart ev + NavigationEvent.timeToFirstByte ev
  = NavigationEvent.responseStart ev /\
  NavigationEvent.responseStart ev + NavigationEvent.responseTime ev
  + NavigationEvent.domProcessingTime ev
  = NavigationEvent.loadEventStart ev /\
  NavigationEvent.loadEventStart ev + NavigationEvent.loadEventTime ev
  = NavigationEvent.duration ev /\
  (0 < PerformanceTiming.secureConnectionStart entryData ->
   0 < PerformanceTiming.connectStart entryData ->
   NavigationEvent.secureConnectionStart ev + NavigationEvent.tlsTime ev
   = NavigationEvent.connectStart ev + NavigationEvent.connect ev).
Proof.
  intros Hrequest Hresponse Hload. cbn.
  destruct (Z.gtb_spec (PerformanceTiming.requestStart entryData) 0);
    [ | lia].
  destruct (Z.gtb_spec (PerformanceTiming.responseStart entryData) 0);
    [ | lia].
  destruct (Z.gtb_spec (PerformanceTiming.loadEventStart entryData) 0);
    [ | lia].
  destruct (Z.gtb_spec (PerformanceTiming.secureConnectionStart entryData) 0);
    destruct (Z.gtb_spec (PerformanceTiming.connectStart entryData) 0);
    repeat split; intros; lia.
Qed.

(** ** Histories *)

Section Histories.

Variable PERFORMANCE_NAVIGATION_EVENT_TYPE : string.

Local Abbreviation TYPE := PERFORMANCE_NAVIGATION_EVENT_TYPE.

(** What one call of [eventListener] can do to the page. *)
Lemma eventListener_effect (w w' : World) :
  eventListener TYPE w = Returns w' ->
  w' = setTimeout RecordNavigation w \/
  w' = w \/
  exists f entryData,
    recordEvent (this w) = Some f /\
    w' = call_recordEvent f TYPE
           (Level2Data (eventDataNavigationTimingLevel2 entryData)) w.
Proof.
  unfold eventListener, performanceNavigationEventHandlerTimingLevel1,
    performanceNavigationEventHandlerTimingLevel2.
  destruct (performance w) as [p | ]; [ | discriminate].
  destruct (getEntriesByType_NAVIGATION p) as [ | entryData rest];
    intros Hret; inversion Hret; subst w'.
  - left. reflexivity.
  - right. destruct (recordEvent (this w)) as [f | ] eqn:Hcallback.
    + right. exists f, entryData. split; reflexivity.
    + left. reflexivity.
Qed.

(** What one run of the deferred closure can do to the page. *)
Lemma recordNavigation_effect (w w' : World) :
  recordNavigation TYPE w = Returns w' ->
  w' = w \/
  exists f p,
    recordEvent (this w) = Some f /\
    w' = call_recordEvent f TYPE
           (Level1Data (eventDataNavigationTimingLevel1 (timing p))) w.
Proof.
  unfold recordNavigation.
  destruct (performance w) as [p | ]; [ | discriminate].
  destruct (recordEvent (this w)) as [f | ];
    intros Hret; inversion Hret; subst w'.
  - right. exists f, p. split; reflexivity.
  - left. reflexivity.
Qed.

Lemma level1_well_tagged (entryData : PerformanceTiming.t) :
  well_tagged (Level1Data (eventDataNavigationTimingLevel1 entryData)).
Proof. cbn. repeat split. Qed.

Lemma level2_well_tagged (entryData : PerformanceNavigationTiming.t) :
  well_tagged (Level2Data (eventDataNavigationTimingLevel2 entryData)).
Proof. cbn. repeat split; discriminate. Qed.

(** A step that records nothing. *)
Ltac silent_step :=
  exists []; rewrite app_nil_r;
  repeat split; cbn; try reflexivity; try discriminate;
  try apply Forall_nil; try lia.

(** A step that records the one call its goal mentions. *)
Ltac recording_step :=
  eexists [_]; repeat split; cbn; try reflexivity; try discriminate;
  try (intros; cbn in *; congruence); try lia;
  try (apply Forall_cons; [split; [reflexivity | ] | apply Forall_nil]).

(** One action: the calls it adds, the timers it leaves, the callback it
    keeps. *)
Lemma step_effect (a : Action) (w : World) :
  tidy w ->
  exists new,
    recorded (step TYPE a w) = recorded w ++ new /\
    Forall (sound_call TYPE) new /\
    (List.length new + List.length (timers (step TYPE a w))
     <= List.length (timers w) + (if firing a then 1 else 0))%nat /\
    (initializes a = false ->
     recordEvent (this (step TYPE a w)) = recordEvent (this w)) /\
    (initializes a = false -> recordEvent (this w) = None -> new = []) /\
    pluginId (this (step TYPE a w)) = pluginId (this w).
Proof.
  intros Htidy. destruct a as [context | | | | | h]; cbn [step].
  - unfold load. cbn [this set_this enabled].
    destruct (enabled (this w)); [ | silent_step].
    destruct (hasTheWindowLoadEventFired _); [ | ].
    + destruct (eventListener TYPE _) as [w' | ] eqn:Hcall; [ | silent_step].
      destruct (eventListener_effect _ _ Hcall)
        as [Hw' | [Hw' | (f & entryData & Hf & Hw')]]; subst w'.
      * silent_step. rewrite length_app. cbn. lia.
      * silent_step.
      * recording_step. apply level2_well_tagged.
    + unfold addEventListener. cbn [loadListeners set_this].
      destruct (existsb _ _); silent_step.
  - unfold enable. destruct (enabled (this w)); [silent_step | ].
    unfold addEventListener. cbn [loadListeners set_this].
    destruct (existsb _ _); silent_step.
  - unfold disable. destruct (enabled (this w)); silent_step.
  - rewrite (dispatchLoad_tidy TYPE w Htidy).
    destruct (registrations w); [silent_step | ].
    unfold invoke.
    destruct (eventListener TYPE w) as [w' | ] eqn:Hcall; [ | silent_step].
    destruct (eventListener_effect _ _ Hcall)
      as [Hw' | [Hw' | (f & entryData & Hf & Hw')]]; subst w'.
    + silent_step. rewrite length_app. cbn. lia.
    + silent_step.
    + recording_step. apply level2_well_tagged.
  - unfold runNextTimer. destruct (timers w) as [ | [] rest] eqn:Htimers;
      [silent_step; rewrite Htimers; cbn; lia | ].
    cbn [runTask tl].
    destruct (recordNavigation TYPE (set_timers rest w)) as [w' | ] eqn:Hrun;
      [ | silent_step].
    destruct (recordNavigation_effect _ _ Hrun)
      as [Hw' | (f & p & Hf & Hw')]; subst w'.
    + silent_step.
    + recording_step. apply level1_well_tagged.
  - silent_step.
Qed.

(** A whole history, by induction on its actions. *)
Lemma run_effect (actions : list Action) (w : World) :
  tidy w ->
  exists new,
    recorded (run TYPE actions w) = recorded w ++ new /\
    Forall (sound_call TYPE) new /\
    (List.length new + List.length (timers (run TYPE actions w))
     <= List.length (timers w) + firings actions)%nat /\
    (forallb (fun a => negb (initializes a)) actions = true ->
     recordEvent (this w) = None ->
     new = [] /\ recordEvent (this (run TYPE actions w)) = None) /\
    pluginId (this (run TYPE actions w)) = pluginId (this w).
Proof.
  revert w. induction actions as [ | a actions IH]; intros w Htidy.
  - exists []. rewrite app_nil_r. cbn. repeat split; try apply Forall_nil.
    + lia.
    + assumption.
  - destruct (step_effect a w Htidy)
      as (new1 & Hrec1 & Hsound1 & Hbound1 & Hkeep1 & Hnone1 & Hid1).
    destruct (IH (step TYPE a w) (tidy_step TYPE a w Htidy))
      as (new2 & Hrec2 & Hsound2 & Hbound2 & Hnone2 & Hid2).
    exists (new1 ++ new2). cbn [run fold_left].
    change (fold_left (fun acc b => step TYPE b acc) actions (step TYPE a w))
      with (run TYPE actions (step TYPE a w)).
    split; [rewrite Hrec2, Hrec1, app_assoc; reflexivity | ].
    split; [apply Forall_app; split; assumption | ].
    split.
    + rewrite length_app. unfold firings in *. cbn [filter].
      destruct (firing a); cbn [List.length]; lia.
    + split; [ | congruence].
      cbn [forallb]. intros Hquiet Hnone.
      apply andb_true_iff in Hquiet. destruct Hquiet as [Ha Hrest].
      apply negb_true_iff in Ha.
      rewrite (Hnone1 Ha Hnone). cbn [app].
      apply Hnone2; [exact Hrest | ].
      rewrite (Hkeep1 Ha). exact Hnone.
Qed.

Lemma newWorld_tidy (h : option Performance) : tidy (newWorld h).
Proof. split; [apply Nat.le_0_l | reflexivity]. Qed.

(** X4: the identifier the registry addresses the plugin by never changes:
    whatever has been called on it, [getPluginId] answers the constant the
    constructor stored. *)
Theorem getPluginId_constant (w : World) :
  reachable TYPE w -> getPluginId w = NAVIGATION_EVENT_PLUGIN_ID.
Proof.
  intros (h & actions & Hw). subst w. unfold getPluginId.
  destruct (run_effect actions (newWorld h) (newWorld_tidy h))
    as (new & _ & _ & _ & _ & Hid).
  rewrite Hid. reflexivity.
Qed.

(** X5: every call the plugin has made passes the event type and an event
    that tells its source: schema version 1.0.0 either way; timing level 1,
    initiator type "navigation", start time 0 and none of the transfer,
    worker, redirect-count and protocol properties for an event built from
    [performance.timing]; timing level 2 and all of those properties for an
    event built from a navigation entry. *)
Theorem recorded_calls_sound (w : World) :
  reachable TYPE w -> Forall (sound_call TYPE) (recorded w).
Proof.
  intros (h & actions & Hw). subst w.
  destruct (run_effect actions (newWorld h) (newWorld_tidy h))
    as (new & Hrec & Hsound & _).
  rewrite Hrec. exact Hsound.
Qed.

(** X6: the plugin records at most one event per initialization or [load]
    event: on a page that started with a fresh plugin, the events recorded
    and the closures still deferred together never outnumber the calls of
    [load] and the [load] events so far. *)
Theorem records_bounded_by_firings
  (h : option Performance) (actions : list Action) :
  (List.length (recorded (run TYPE actions (newWorld h)))
   + List.length (timers (run TYPE actions (newWorld h)))
   <= firings actions)%nat.
Proof.
  destruct (run_effect actions (newWorld h) (newWorld_tidy h))
    as (new & Hrec & _ & Hbound & _).
  rewrite Hrec. cbn in *. exact Hbound.
Qed.

(** X7: a plugin that was never initialized records nothing: as long as
    [load] is not called, no callback is set and nothing is recorded,
    whatever else happens to the page. *)
Theorem uninitialized_records_nothing
  (h : option Performance) (actions : list Action) :
  forallb (fun a => negb (initializes a)) actions = true ->
  recorded (run TYPE actions (newWorld h)) = [] /\
  recordEvent (this (run TYPE actions (newWorld h))) = None.
Proof.
  intros Hquiet.
  destruct (run_effect actions (newWorld h) (newWorld_tidy h))
    as (new & Hrec & _ & _ & Hnone & _).
  destruct (Hnone Hquiet eq_refl) as [Hnew Hcallback].
  rewrite Hrec, Hnew. split; [reflexivity | exact Hcallback].
Qed.

(** *** Switching the plugin off and on *)

Lemma registrations_disable (w : World) :
  tidy w -> registrations (disable w) = 0%nat.
Proof.
  intros [_ Hoff]. unfold disable.
  destruct (enabled (this w)) eqn:Hon; cbn [negb].
  - apply registrations_remove.
  - apply Hoff. reflexivity.
Qed.

(** X8: a disabled plugin does not react to the [load] event: after
    [disable] the event leaves the page exactly as it is, so nothing is
    recorded and nothing deferred. *)
Theorem disabled_ignores_load_event (w : World) :
  reachable TYPE w -> dispatchLoad TYPE (disable w) = disable w.
Proof.
  intros Hreach. pose proof (reachable_tidy TYPE w Hreach) as Htidy.
  rewrite (dispatchLoad_tidy TYPE _ (tidy_disable w Htidy)).
  rewrite (registrations_disable w Htidy). reflexivity.
Qed.

(** X9: [disable] does not cancel a capture that is already deferred: the
    closure the Level 1 handler handed to [setTimeout] does not look at
    [enabled], so if the plugin is disabled between the [load] event and the
    timer's turn, the event is recorded all the same. *)
Theorem disable_keeps_deferred_capture
  (w : World) (p : Performance) (f : RecordEvent) (rest : list Task) :
  performance w = Some p ->
  recordEvent (this w) = Some f ->
  timers w = RecordNavigation :: rest ->
  let w' := step TYPE TimerTurn (disable w) in
  enabled (this w') = false /\
  timers w' = rest /\
  recorded w'
  = recorded w
    ++ [{| callee := f;
           eventType := TYPE;
           eventData :=
             Level1Data (eventDataNavigationTimingLevel1 (timing p)) |}].
Proof.
  intros Hperf Hcallback Htimers. cbn zeta.
  unfold step, runNextTimer, disable, removeEventListener.
  destruct (enabled (this w)) eqn:Hon; cbn [negb];
    cbn [timers set_loadListeners set_this]; rewrite Htimers;
    cbn [runTask]; unfold recordNavigation; cbn; rewrite Hperf, Hcallback;
    cbn; repeat split; try reflexivity; exact Hon.
Qed.

Lemma switching_step (a : Action) (w : World) :
  switching a = true ->
  recorded (step TYPE a w) = recorded w /\
  timers (step TYPE a w) = timers w /\
  recordEvent (this (step TYPE a w)) = recordEvent (this w).
Proof.
  destruct a as [context | | | | | h]; cbn [switching step];
    try discriminate; intros _.
  - unfold enable. destruct (enabled (this w)); [repeat split | ].
    unfold addEventListener. cbn [loadListeners set_this].
    destruct (existsb _ _); repeat split.
  - unfold disable. destruct (enabled (this w)); repeat split.
  - repeat split.
Qed.

(** X10: [enable] and [disable] never capture, whatever the host reports:
    over any sequence of [enable], [disable] and changes of the host's
    timing data, from any state of the page, nothing is recorded, nothing
    deferred and the callback stays.  In particular [enable] does not make
    up for a [load] event that fired while the plugin was disabled. *)
Theorem switching_never_captures (actions : list Action) (w : World) :
  forallb switching actions = true ->
  recorded (run TYPE actions w) = recorded w /\
  timers (run TYPE actions w) = timers w /\
  recordEvent (this (run TYPE actions w)) = recordEvent (this w).
Proof.
  revert w. induction actions as [ | a actions IH]; intros w Hall.
  - repeat split.
  - cbn [forallb] in Hall. apply andb_true_iff in Hall.
    destruct Hall as [Ha Hrest].
    destruct (switching_step a w Ha) as (Hrec & Htimers & Hcallback).
    destruct (IH (step TYPE a w) Hrest) as (Hrec' & Htimers' & Hcallback').
    cbn [run fold_left].
    change (fold_left (fun acc b => step TYPE b acc) actions (step TYPE a w))
      with (run TYPE actions (step TYPE a w)).
    repeat split; congruence.
Qed.

Lemma unregistered_filter_others (ls : list Listener) :
  existsb (Listener_eqb EventListener) ls = false ->
  filter (fun l => negb (Listener_eqb EventListener l)) ls = ls.
Proof.
  induction ls as [ | [ | id] ls IH]; cbn; [reflexivity | discriminate | ].
  intros Hnone. f_equal. exact (IH Hnone).
Qed.

Lemma tidy_disabled_unregistered (w : World) :
  tidy w -> enabled (this w) = false ->
  existsb (Listener_eqb EventListener) (loadListeners w) = false.
Proof.
  intros [_ Hoff] Hdisabled. specialize (Hoff Hdisabled).
  destruct (existsb (Listener_eqb EventListener) (loadListeners w))
    eqn:Hregistered; [ | reflexivity].
  exfalso. apply (registered_filter _ Hregistered).
  unfold registrations in Hoff.
  destruct (filter (Listener_eqb EventListener) (loadListeners w));
    [reflexivity | discriminate].
Qed.

(** X11: [enable] followed by [disable] is a round trip on a disabled
    plugin: the page is exactly what it was.  The other way round it is not:
    [disable] followed by [enable] on an enabled plugin leaves the listener
    registered, last among the [load] listeners, also when it was not
    registered before. *)
Theorem enable_disable_round_trip (w : World) :
  reachable TYPE w ->
  (enabled (this w) = false -> disable (enable w) = w) /\
  (enabled (this w) = true ->
   loadListeners (enable (disable w))
   = filter (fun l => negb (Listener_eqb EventListener l)) (loadListeners w)
     ++ [EventListener]).
Proof.
  intros Hreach. pose proof (reachable_tidy TYPE w Hreach) as Htidy. split.
  - intros Hdisabled.
    pose proof (tidy_disabled_unregistered w Htidy Hdisabled) as Hnone.
    destruct w as [[id on callback] perf ls ts calls]. cbn in Hdisabled, Hnone.
    subst on. unfold enable, disable, addEventListener, removeEventListener.
    cbn. rewrite Hnone. cbn. rewrite filter_app. cbn. rewrite app_nil_r.
    unfold set_loadListeners, set_this. cbn. f_equal.
    exact (unregistered_filter_others ls Hnone).
  - intros Hon. unfold enable, disable, addEventListener, removeEventListener.
    rewrite Hon.
    cbn [negb this set_this set_loadListeners loadListeners enabled].
    assert (Hgone :
              existsb (Listener_eqb EventListener)
                (filter (fun l => negb (Listener_eqb EventListener l))
                   (loadListeners w)) = false).
    { induction (loadListeners w) as [ | [ | id] ls IH]; cbn;
        [reflexivity | exact IH | exact IH]. }
    rewrite Hgone. reflexivity.
Qed.

(** *** Initialization, once and again *)

Lemma load_not_fired (context : PluginContext) (w : World) :
  enabled (this w) = true ->
  hasTheWindowLoadEventFired w = false ->
  load TYPE context w
  = Returns (addEventListener EventListener (with_callback context w)).
Proof.
  intros Hon Hpending. unfold load. cbn [this set_this enabled].
  rewrite Hon.
  change (hasTheWindowLoadEventFired
            (set_this {| pluginId := pluginId (this w);
                         enabled := true;
                         recordEvent := Some (record context) |} w))
    with (hasTheWindowLoadEventFired w).
  rewrite Hpending. unfold with_callback. rewrite Hon. reflexivity.
Qed.

Lemma load_fired (context : PluginContext) (w : World) (p : Performance)
  (entryData : PerformanceNavigationTiming.t)
  (rest : list PerformanceNavigationTiming.t) :
  enabled (this w) = true ->
  performance w = Some p ->
  getEntriesByType_NAVIGATION p = entryData :: rest ->
  Boolean (PerformanceNavigationTiming.loadEventEnd entryData) = true ->
  load TYPE context w
  = Returns
      (call_recordEvent (record context) TYPE
         (Level2Data (eventDataNavigationTimingLevel2 entryData))
         (with_callback context w)).
Proof.
  intros Hon Hperf Hentries Hended. unfold load. cbn [this set_this enabled].
  rewrite Hon. unfold hasTheWindowLoadEventFired, eventListener.
  cbn [performance set_this]. rewrite Hperf, Hentries, Hended.
  unfold with_callback. rewrite Hon. reflexivity.
Qed.

(** X12: [load] is not idempotent on a page that has finished loading:
    every call on an enabled plugin captures again.  A run of calls records
    one Level 2 event of the first navigation entry per call, each through
    the callback of its own context, and registers no listener. *)
Theorem load_again_records_again
  (contexts : list PluginContext) (w : World) (p : Performance)
  (entryData : PerformanceNavigationTiming.t)
  (rest : list PerformanceNavigationTiming.t) :
  enabled (this w) = true ->
  performance w = Some p ->
  getEntriesByType_NAVIGATION p = entryData :: rest ->
  Boolean (PerformanceNavigationTiming.loadEventEnd entryData) = true ->
  recorded (run TYPE (map CallLoad contexts) w)
  = recorded w ++ calls_of TYPE entryData contexts /\
  loadListeners (run TYPE (map CallLoad contexts) w) = loadListeners w /\
  timers (run TYPE (map CallLoad contexts) w) = timers w.
Proof.
  intros Hon Hperf Hentries Hended. revert w Hon Hperf.
  induction contexts as [ | context contexts IH]; intros w Hon Hperf.
  - cbn. rewrite app_nil_r. repeat split.
  - cbn [map run fold_left step].
    rewrite (load_fired context w p entryData rest Hon Hperf Hentries Hended).
    match goal with
    | |- context [fold_left _ _ ?w1] =>
        change (fold_left (fun acc a => step TYPE a acc)
                  (map CallLoad contexts) w1)
          with (run TYPE (map CallLoad contexts) w1);
        destruct (IH w1) as (Hrec & Hls & Htimers);
        [exact Hon | exact Hperf | ]
    end.
    rewrite Hrec, Hls, Htimers. cbn. rewrite <- app_assoc. repeat split.
Qed.

Lemma addEventListener_frame (l : Listener) (w : World) :
  this (addEventListener l w) = this w /\
  performance (addEventListener l w) = performance w /\
  recorded (addEventListener l w) = recorded w /\
  timers (addEventListener l w) = timers w.
Proof.
  unfold addEventListener.
  destruct (existsb (Listener_eqb l) (loadListeners w)); repeat split.
Qed.

Lemma addEventListener_registered (w : World) :
  existsb (Listener_eqb EventListener)
    (loadListeners (addEventListener EventListener w)) = true.
Proof.
  unfold addEventListener.
  destruct (existsb (Listener_eqb EventListener) (loadListeners w))
    eqn:Hregistered; [exact Hregistered | ].
  cbn [loadListeners set_loadListeners]. rewrite existsb_app.
  apply orb_true_r.
Qed.

Lemma addEventListener_again (w : World) :
  existsb (Listener_eqb EventListener) (loadListeners w) = true ->
  addEventListener EventListener w = w.
Proof. intros Hregistered. unfold addEventListener. rewrite Hregistered. reflexivity. Qed.

(** X13: initializing again before the [load] event replaces the callback
    and does not double the capture: after two calls of [load] on an enabled
    plugin whose page is still loading, the listener is registered once,
    nothing has been recorded, and the [load] event records one event,
    through the second callback. *)
Theorem load_twice_before_event
  (first second : PluginContext) (w : World) :
  reachable TYPE w ->
  enabled (this w) = true ->
  hasTheWindowLoadEventFired w = false ->
  let w2 := run TYPE [CallLoad first; CallLoad second] w in
  registrations w2 = 1%nat /\
  recordEvent (this w2) = Some (record second) /\
  recorded w2 = recorded w /\
  forall p entryData rest,
    getEntriesByType_NAVIGATION p = entryData :: rest ->
    recorded (dispatchLoad TYPE (set_performance (Some p) w2))
    = recorded w
      ++ [{| callee := record second;
             eventType := TYPE;
             eventData :=
               Level2Data (eventDataNavigationTimingLevel2 entryData) |}].
Proof.
  intros Hreach Hon Hpending. cbn zeta.
  pose proof (reachable_tidy TYPE w Hreach) as Htidy.
  pose proof (tidy_run TYPE [CallLoad first; CallLoad second] w Htidy)
    as Htidy2.
  cbn [run fold_left step] in *.
  rewrite (load_not_fired first w Hon Hpending) in *.
  remember (addEventListener EventListener (with_callback first w)) as w1
    eqn:Hw1.
  destruct (addEventListener_frame EventListener (with_callback first w))
    as (Hthis1 & Hperf1 & Hrec1 & _).
  rewrite <- Hw1 in Hthis1, Hperf1, Hrec1.
  pose proof (addEventListener_registered (with_callback first w))
    as Hregistered1.
  rewrite <- Hw1 in Hregistered1.
  assert (Hon1 : enabled (this w1) = true)
    by (rewrite Hthis1; exact Hon).
  assert (Hpending1 : hasTheWindowLoadEventFired w1 = false).
  { unfold hasTheWindowLoadEventFired in *. rewrite Hperf1. exact Hpending. }
  rewrite (load_not_fired second w1 Hon1 Hpending1) in *.
  rewrite (addEventListener_again (with_callback second w1) Hregistered1)
    in *.
  assert (Hone : registrations (with_callback second w1) = 1%nat).
  { destruct Htidy2 as [Hle _].
    pose proof (registered_filter _ Hregistered1) as Hsome.
    unfold registrations in *. cbn [loadListeners with_callback set_this] in *.
    destruct (filter (Listener_eqb EventListener) (loadListeners w1))
      as [ | l [ | l' ls]]; cbn in *; [congruence | reflexivity | lia]. }
  split; [exact Hone | ].
  split; [reflexivity | ].
  split; [exact Hrec1 | ].
  intros p entryData rest Hentries.
  rewrite dispatchLoad_tidy.
  2:{ exact (tidy_frame _ _ eq_refl eq_refl Htidy2). }
  change (registrations (set_performance (Some p) (with_callback second w1)))
    with (registrations (with_callback second w1)).
  rewrite Hone. unfold invoke, eventListener.
  cbn [performance set_performance]. rewrite Hentries.
  cbn. rewrite Hrec1. reflexivity.
Qed.

(** *** The deferred closure *)

(** X14: the Level 1 path is chosen when the listener fires, but the
    closure reads the page when it runs.  After a firing on a host without
    navigation entries and with no other timer pending: the event is built
    from the [performance.timing] of the timer's turn, also when the host
    has a navigation entry by then; a callback that [load] stores between
    the firing and the timer's turn receives the event; and on a host that
    has lost [performance] by then the closure throws and nothing is
    recorded. *)
Theorem deferred_capture_reads_late (w : World) (p : Performance) :
  performance w = Some p ->
  getEntriesByType_NAVIGATION p = [] ->
  timers w = [] ->
  exists w1,
    eventListener TYPE w = Returns w1 /\
    recorded w1 = recorded w /\
    (forall p' f,
        recordEvent (this w) = Some f ->
        recorded (step TYPE TimerTurn (set_performance (Some p') w1))
        = recorded w
          ++ [{| callee := f;
                 eventType := TYPE;
                 eventData :=
                   Level1Data
                     (eventDataNavigationTimingLevel1 (timing p')) |}]) /\
    (forall context,
        recordEvent (this w) = None ->
        enabled (this w) = true ->
        recorded (run TYPE [CallLoad context; TimerTurn] w1)
        = recorded w
          ++ [{| callee := record context;
                 eventType := TYPE;
                 eventData :=
                   Level1Data
                     (eventDataNavigationTimingLevel1 (timing p)) |}]) /\
    runNextTimer TYPE (set_performance None w1) = Throws /\
    recorded (step TYPE TimerTurn (set_performance None w1)) = recorded w /\
    timers (step TYPE TimerTurn (set_performance None w1)) = [].
Proof.
  intros Hperf Hentries Htimers. unfold eventListener.
  rewrite Hperf, Hentries. eexists. split; [reflexivity | ].
  unfold performanceNavigationEventHandlerTimingLevel1, setTimeout.
  rewrite Htimers. split; [reflexivity | ].
  split; [ | split; [ | split; [reflexivity | split; reflexivity]]].
  - intros p' f Hcallback. cbn. unfold recordNavigation. cbn.
    rewrite Hcallback. reflexivity.
  - intros context Hnone Hon. cbn [run fold_left step].
    rewrite load_not_fired.
    + unfold addEventListener.
      destruct (existsb _ _); cbn; unfold recordNavigation; cbn;
        rewrite Hperf; reflexivity.
    + exact Hon.
    + unfold hasTheWindowLoadEventFired. cbn. rewrite Hperf, Hentries.
      reflexivity.
Qed.

(** *** A host without [performance] *)

Lemma fold_invoke_without_performance (ls : list Listener) (w : World) :
  performance w = None ->
  fold_left (fun acc l => invoke TYPE l acc) ls w = w.
Proof.
  intros Hnone. induction ls as [ | [ | id] ls IH]; cbn.
  - reflexivity.
  - unfold eventListener. rewrite Hnone. exact IH.
  - exact IH.
Qed.

Lemma step_without_performance (a : Action) (w : World) :
  updates_host a = false ->
  performance w = None ->
  recorded (step TYPE a w) = recorded w /\
  performance (step TYPE a w) = None /\
  (List.length (timers (step TYPE a w)) <= List.length (timers w))%nat.
Proof.
  intros Ha Hnone. destruct a as [context | | | | | h]; cbn [step];
    try discriminate.
  - unfold load. cbn [this set_this enabled].
    unfold hasTheWindowLoadEventFired. cbn [performance set_this].
    rewrite Hnone. unfold addEventListener.
    destruct (enabled (this w)); [destruct (existsb _ _) | ];
      cbn; repeat split; auto.
  - unfold enable, addEventListener.
    destruct (enabled (this w)); [ | destruct (existsb _ _)];
      cbn; repeat split; auto.
  - unfold disable. destruct (enabled (this w)); cbn; repeat split; auto.
  - unfold dispatchLoad. rewrite (fold_invoke_without_performance _ w Hnone).
    repeat split; auto.
  - unfold runNextTimer. destruct (timers w) as [ | [] rest] eqn:Htimers.
    + rewrite Htimers. repeat split; auto.
    + cbn [runTask]. unfold recordNavigation. cbn [performance set_timers].
      rewrite Hnone. cbn. repeat split; auto.
Qed.

(** X15: on a host without a [performance] object the plugin never records
    and never defers anything.  [load] does not throw, and on an enabled
    plugin it registers the listener; every call of [eventListener] throws;
    and as long as the host does not change, whatever is called and however
    often [load] fires, the record stays as it is and no timer is added. *)
Theorem without_performance_nothing_recorded (w : World) :
  performance w = None ->
  eventListener TYPE w = Throws /\
  (forall context,
      exists w',
        load TYPE context w = Returns w' /\
        (enabled (this w) = true ->
         existsb (Listener_eqb EventListener) (loadListeners w') = true)) /\
  (forall actions,
      forallb (fun a => negb (updates_host a)) actions = true ->
      recorded (run TYPE actions w) = recorded w /\
      (List.length (timers (run TYPE actions w))
       <= List.length (timers w))%nat).
Proof.
  intros Hnone. split; [ | split].
  - unfold eventListener. rewrite Hnone. reflexivity.
  - intros context.
    assert (Hpending : hasTheWindowLoadEventFired w = false).
    { unfold hasTheWindowLoadEventFired. rewrite Hnone. reflexivity. }
    destruct (enabled (this w)) eqn:Hon.
    + rewrite (load_not_fired context w Hon Hpending). eexists.
      split; [reflexivity | ]. intros _.
      apply addEventListener_registered.
    + unfold load. cbn [this set_this enabled]. rewrite Hon. eexists.
      split; [reflexivity | discriminate].
  - intros actions. revert w Hnone.
    induction actions as [ | a actions IH]; intros w Hnone Hall.
    + split; [reflexivity | apply le_n].
    + cbn [forallb] in Hall. apply andb_true_iff in Hall.
      destruct Hall as [Ha Hrest]. apply negb_true_iff in Ha.
      destruct (step_without_performance a w Ha Hnone)
        as (Hrec & Hnone' & Htimers).
      destruct (IH (step TYPE a w) Hnone' Hrest) as (Hrec' & Htimers').
      cbn [run fold_left].
      change (fold_left (fun acc b => step TYPE b acc) actions
                (step TYPE a w))
        with (run TYPE actions (step TYPE a w)).
      split; [congruence | lia].
Qed.

(** *** The listener stays *)

(** X16: the listener is not a one-shot listener.  A [load] event leaves it
    registered, and every further [load] event captures again: on a host
    with a navigation entry, [n] events in a row record [n] times the same
    Level 2 event. *)
Theorem listener_is_not_one_shot
  (n : nat) (w : World) (p : Performance) (f : RecordEvent)
  (entryData : PerformanceNavigationTiming.t)
  (rest : list PerformanceNavigationTiming.t) :
  registrations w = 1%nat ->
  performance w = Some p ->
  getEntriesByType_NAVIGATION p = entryData :: rest ->
  recordEvent (this w) = Some f ->
  recorded (run TYPE (repeat LoadSignal n) w)
  = recorded w
    ++ repeat
         {| callee := f;
            eventType := TYPE;
            eventData :=
              Level2Data (eventDataNavigationTimingLevel2 entryData) |}
         n /\
  loadListeners (run TYPE (repeat LoadSignal n) w) = loadListeners w.
Proof.
  intros Hone Hperf Hentries Hcallback. revert w Hone Hperf Hcallback.
  induction n as [ | n IH]; intros w Hone Hperf Hcallback.
  - cbn. rewrite app_nil_r. split; reflexivity.
  - cbn [repeat run fold_left step].
    unfold dispatchLoad.
    rewrite (fold_invoke_registered_once TYPE _ w Hone).
    unfold invoke, eventListener. rewrite Hperf, Hentries.
    unfold performanceNavigationEventHandlerTimingLevel2.
    rewrite Hcallback.
    match goal with
    | |- context [fold_left _ _ ?w1] =>
        change (fold_left (fun acc a => step TYPE a acc)
                  (repeat LoadSignal n) w1)
          with (run TYPE (repeat LoadSignal n) w1);
        destruct (IH w1) as (Hrec & Hls);
        [exact Hone | exact Hperf | exact Hcallback | ]
    end.
    rewrite Hrec, Hls. cbn. rewrite <- app_assoc. split; reflexivity.
Qed.

End Histories.

(** ** The further properties at concrete pages *)

Lemma level1_offsets_within_duration_sample :
  0 <= NavigationEvent.requestStart
         (eventDataNavigationTimingLevel1 legacy_timing)
  <= NavigationEvent.duration (eventDataNavigationTimingLevel1 legacy_timing).
Proof.
  pose proof (level1_offsets_within_duration legacy_timing
                ltac:(cbn; lia)) as Hall.
  rewrite Forall_forall in Hall.
  apply (Hall (PerformanceTiming.requestStart, NavigationEvent.requestStart)).
  - cbn. tauto.
  - right. cbn. lia.
Defined.

Lemma level1_timeline_adds_up_sample :
  NavigationEvent.requestStart (eventDataNavigationTimingLevel1 legacy_timing)
  + NavigationEvent.timeToFirstByte
      (eventDataNavigationTimingLevel1 legacy_timing)
  = NavigationEvent.responseStart
      (eventDataNavigationTimingLevel1 legacy_timing).
Proof.
  exact (proj1 (level1_timeline_adds_up legacy_timing
                  eq_refl eq_refl eq_refl)).
Defined.

Lemma legacy_page_reachable : reachable sample_type legacy_page_after_load.
Proof.
  exists (Some legacy_host), [CallLoad sample_context; LoadSignal].
  reflexivity.
Qed.

Lemma modern_page_reachable : reachable sample_type modern_page_loaded.
Proof.
  exists (Some (modern_host 0)),
    [CallLoad sample_context; HostUpdate (Some (modern_host 405))].
  reflexivity.
Qed.

Lemma getPluginId_constant_sample :
  getPluginId legacy_page_after_load = NAVIGATION_EVENT_PLUGIN_ID.
Proof.
  exact (getPluginId_constant sample_type legacy_page_after_load
           legacy_page_reachable).
Defined.

Lemma recorded_calls_sound_sample :
  Forall (sound_call sample_type)
    (recorded (step sample_type TimerTurn legacy_page_after_load)).
Proof.
  apply (recorded_calls_sound sample_type).
  exists (Some legacy_host), [CallLoad sample_context; LoadSignal; TimerTurn].
  reflexivity.
Defined.

Lemma uninitialized_records_nothing_sample :
  recorded
    (run sample_type [CallDisable; CallEnable; LoadSignal; TimerTurn]
       (newWorld (Some legacy_host)))
  = [].
Proof.
  exact (proj1 (uninitialized_records_nothing sample_type (Some legacy_host)
                  [CallDisable; CallEnable; LoadSignal; TimerTurn] eq_refl)).
Defined.

Lemma disabled_ignores_load_event_sample :
  dispatchLoad sample_type (disable modern_page_loaded)
  = disable modern_page_loaded.
Proof.
  exact (disabled_ignores_load_event sample_type modern_page_loaded
           modern_page_reachable).
Defined.

Lemma disable_keeps_deferred_capture_sample :
  recorded (step sample_type TimerTurn (disable legacy_page_after_load))
  = [{| callee := record sample_context;
        eventType := sample_type;
        eventData :=
          Level1Data (eventDataNavigationTimingLevel1 legacy_timing) |}].
Proof.
  exact (proj2 (proj2 (disable_keeps_deferred_capture sample_type
                         legacy_page_after_load legacy_host
                         (record sample_context) [] eq_refl eq_refl eq_refl))).
Defined.

Lemma switching_never_captures_sample :
  recorded
    (run sample_type
       [CallDisable; HostUpdate (Some (modern_host 405)); CallEnable]
       (newWorld (Some (modern_host 0))))
  = [].
Proof.
  exact (proj1 (switching_never_captures sample_type
                  [CallDisable; HostUpdate (Some (modern_host 405));
                   CallEnable]
                  (newWorld (Some (modern_host 0))) eq_refl)).
Defined.

Lemma enable_disable_round_trip_sample :
  disable (enable (disable modern_page_loaded)) = disable modern_page_loaded.
Proof.
  apply (enable_disable_round_trip sample_type (disable modern_page_loaded)).
  - exists (Some (modern_host 0)),
      [CallLoad sample_context; HostUpdate (Some (modern_host 405));
       CallDisable].
    reflexivity.
  - reflexivity.
Defined.

Lemma load_again_records_again_sample :
  recorded
    (run sample_type [CallLoad sample_context; CallLoad other_context]
       (newWorld (Some (modern_host 405))))
  = calls_of sample_type (modern_entry 405) [sample_context; other_context].
Proof.
  exact (proj1 (load_again_records_again sample_type
                  [sample_context; other_context]
                  (newWorld (Some (modern_host 405))) (modern_host 405)
                  (modern_entry 405) [] eq_refl eq_refl eq_refl eq_refl)).
Defined.

Lemma load_twice_before_event_sample :
  registrations
    (run sample_type [CallLoad sample_context; CallLoad other_context]
       (newWorld (Some (modern_host 0))))
  = 1%nat.
Proof.
  exact (proj1 (load_twice_before_event sample_type sample_context
                  other_context (newWorld (Some (modern_host 0)))
                  (ex_intro _ (Some (modern_host 0)) (ex_intro _ [] eq_refl))
                  eq_refl eq_refl)).
Defined.

Lemma deferred_capture_reads_late_sample :
  exists w1,
    eventListener sample_type
      (run sample_type [CallLoad sample_context] (newWorld (Some legacy_host)))
    = Returns w1 /\
    recorded w1 = [].
Proof.
  destruct (deferred_capture_reads_late sample_type
              (run sample_type [CallLoad sample_context]
                 (newWorld (Some legacy_host)))
              legacy_host eq_refl eq_refl eq_refl)
    as (w1 & Hfire & Hrec & _).
  exists w1. split; [exact Hfire | exact Hrec].
Defined.

Lemma without_performance_nothing_recorded_sample :
  eventListener sample_type (newWorld None) = Throws.
Proof.
  exact (proj1 (without_performance_nothing_recorded sample_type
                  (newWorld None) eq_refl)).
Defined.

Lemma listener_is_not_one_shot_sample :
  List.length
    (recorded (run sample_type [LoadSignal; LoadSignal] modern_page_loaded))
  = 2%nat.
Proof.
  exact (f_equal (@List.length RecordCall)
           (proj1 (listener_is_not_one_shot sample_type 2 modern_page_loaded
                     (modern_host 405) (record sample_context)
                     (modern_entry 405) [] eq_refl eq_refl eq_refl eq_refl))).
Defined.
